(* ===================================================================== *)
(* KuCoinDataFetcher.get_combined_data                                    *)
(* (src/kucoin_historical_data_dumper.py): a shallow embedding of the     *)
(* parallel download-and-merge step and the properties of its outcome.    *)
(*                                                                       *)
(* The function is embedded as a state-passing computation that may      *)
(* raise. The state holds what the function can change and an observer   *)
(* can see: the files written, the records given to LOGGER, the requests *)
(* sent. The network, the archive codec, pandas' CSV reader, the         *)
(* filesystem's permissions and the listing page are a parameter, the    *)
(* [World]; the choices of the thread pool are another, the [Scheduler]. *)
(* The tqdm progress bar is not modelled.                                *)
(* ===================================================================== *)

From Stdlib Require Import Ascii Strings.Byte.
From stdpp Require Import base strings list gmap fin_maps pretty.

Local Open Scope string_scope.
Local Open Scope list_scope.
Local Open Scope Z_scope.

(* --------------------------------------------------------------------- *)
(* Python values: exceptions and results                                  *)
(* --------------------------------------------------------------------- *)

(** A Python exception object: its class name and [str(e)]. Only
    subclasses of [Exception] are modelled, which is what
    [except Exception] at line 200 catches. *)
Record PyException := mkExc { exc_type : string; exc_str : string }.

(** What a call evaluates to: a value, or a raised exception. *)
Inductive PyResult (A : Type) : Type :=
| Returned (a : A)
| Raised (e : PyException).
Arguments Returned {A} a.
Arguments Raised {A} e.

#[global] Instance PyException_eq_dec : EqDecision PyException.
Proof. solve_decision. Defined.

#[global] Instance PyResult_eq_dec `{EqDecision A} : EqDecision (PyResult A).
Proof. solve_decision. Defined.

(* --------------------------------------------------------------------- *)
(* pandas: the part of DataFrame the function uses                        *)
(* --------------------------------------------------------------------- *)

Module Pandas.

(** A cell is the text read from the CSV; [None] stands for NaN, which
    [concat] fills in where a frame lacks a column. The row index is
    not modelled: [ignore_index=True] renumbers it. Frames come from
    [pd.read_csv], which makes column labels unique. *)
Definition cell := option string.

Record DataFrame := mkDataFrame {
  columns : list string;
  rows : list (list cell)
}.

#[global] Instance DataFrame_eq_dec : EqDecision DataFrame.
Proof. solve_decision. Defined.

(** [pd.DataFrame()] *)
Definition empty : DataFrame := mkDataFrame [] [].

(** [len(df)] *)
Definition len (df : DataFrame) : nat := length (rows df).

(** Column labels of the result of [concat]: the union of the frames'
    labels, in order of first appearance (outer join, [sort=False]). *)
Definition add_label (acc : list string) (c : string) : list string :=
  if decide (c ∈ acc) then acc else acc ++ [c].

Definition union_columns (dfs : list DataFrame) : list string :=
  foldl add_label [] (dfs ≫= columns).

(** The value of column [c] in a row laid out along [cols]. *)
Definition cell_at (cols : list string) (row : list cell) (c : string) : cell :=
  match list_find (λ x, x = c) cols with
  | Some (i, _) => default None (row !! i)
  | None => None
  end.

(** A row of [df] re-laid along the columns [cols]. *)
Definition reindex (cols : list string) (df : DataFrame) (row : list cell)
  : list cell :=
  cell_at (columns df) row <$> cols.

(** The rows [df] contributes to a frame whose columns are [cols]. *)
Definition block (cols : list string) (df : DataFrame) : list (list cell) :=
  reindex cols df <$> rows df.

Definition concat_frames (dfs : list DataFrame) : DataFrame :=
  let cols := union_columns dfs in
  mkDataFrame cols (dfs ≫= block cols).

(** [pd.concat(dfs, ignore_index=True)]: the rows of every frame, in
    list order; raises ValueError on an empty list. *)
Definition concat (dfs : list DataFrame) : PyResult DataFrame :=
  match dfs with
  | [] => Raised (mkExc "ValueError" "No objects to concatenate")
  | _ :: _ => Returned (concat_frames dfs)
  end.

End Pandas.
Export Pandas.

(* --------------------------------------------------------------------- *)
(* os.path.join (posixpath)                                               *)
(* --------------------------------------------------------------------- *)

Module PosixPath.

Definition startswith_sep (s : string) : bool :=
  match s with
  | String "/"%char _ => true
  | _ => false
  end.

Fixpoint endswith_sep (s : string) : bool :=
  match s with
  | "" => false
  | String c "" => bool_decide (c = "/"%char)
  | String _ s' => endswith_sep s'
  end.

Definition is_empty (s : string) : bool :=
  match s with "" => true | _ => false end.

(** One round of the loop of [posixpath.join]. *)
Definition join_step (path b : string) : string :=
  if startswith_sep b || is_empty path then b
  else if endswith_sep path then path +:+ b
  else path +:+ "/" +:+ b.

(** [os.path.join(a, *p)] *)
Definition join (a : string) (p : list string) : string :=
  foldl join_step a p.

(** A component that is not empty and has no separator at either end. *)
Definition plain (s : string) : bool :=
  negb (is_empty s) && negb (startswith_sep s) && negb (endswith_sep s).

(** A first component that is not empty and has no trailing separator
    (it may be absolute). *)
Definition plain_dir (s : string) : bool :=
  negb (is_empty s) && negb (endswith_sep s).

End PosixPath.

(* --------------------------------------------------------------------- *)
(* The process state the function reads and writes                        *)
(* --------------------------------------------------------------------- *)

Inductive Level := INFO | WARNING | ERROR.

#[global] Instance Level_eq_dec : EqDecision Level.
Proof. solve_decision. Defined.

(** One record handed to [LOGGER]. *)
Record LogRecord := mkLog { levelname : Level; message : string }.

#[global] Instance LogRecord_eq_dec : EqDecision LogRecord.
Proof. solve_decision. Defined.

(** [files]: the CSV files on disk, by path, each holding the table that
    [to_csv] wrote (directories are not tracked); [log]: the records
    emitted so far, oldest first; [requested]: the URLs handed to
    [requests.get] so far, oldest first. *)
Record Runtime := mkRuntime {
  files : gmap string DataFrame;
  log : list LogRecord;
  requested : list string
}.

Definition boot : Runtime := mkRuntime ∅ [] [].

#[global] Instance byte_eq_decision : EqDecision Byte.byte := Byte.byte_eq_dec.

(** An HTTP response: [status_code] and [content]. *)
Record Response := mkResponse {
  status_code : Z;
  content : list Byte.byte
}.

(** The collaborators outside the repository, as the function sees them:
    what the browser session of [get_available_dates] extracts from the
    listing page (or the exception it ends with), [requests.get],
    [zipfile.ZipFile(BytesIO(..))] as the archive's members in order,
    [pd.read_csv] on a member, and whether the process may create or
    write a path, on which the success of [os.makedirs] and [to_csv]
    depends. *)
Record World := mkWorld {
  listing : string -> string -> PyResult (list string);
  http_get : string -> PyResult Response;
  unzip : list Byte.byte -> PyResult (list (string * list Byte.byte));
  read_csv : list Byte.byte -> PyResult DataFrame;
  writable : string -> bool
}.

(* --------------------------------------------------------------------- *)
(* Computations: state passing with exceptions                            *)
(* --------------------------------------------------------------------- *)

Definition Py (A : Type) : Type := Runtime -> PyResult A * Runtime.

Definition ret {A} (a : A) : Py A := λ st, (Returned a, st).

Definition raise {A} (e : PyException) : Py A := λ st, (Raised e, st).

Definition bind {A B} (m : Py A) (k : A -> Py B) : Py B :=
  λ st, match m st with
        | (Returned a, st') => k a st'
        | (Raised e, st') => (Raised e, st')
        end.

(** [try: m  except Exception as e: h e] *)
Definition try_except {A} (m : Py A) (h : PyException -> Py A) : Py A :=
  λ st, match m st with
        | (Returned a, st') => (Returned a, st')
        | (Raised e, st') => h e st'
        end.

(** A pure call that may raise. *)
Definition lift {A} (r : PyResult A) : Py A := λ st, (r, st).

#[global] Instance Py_ret : MRet Py := @ret.
#[global] Instance Py_bind : MBind Py := λ A B k m, bind m k.

Definition emit (lv : Level) (msg : string) : Py unit :=
  λ st, (Returned tt, mkRuntime (files st) (log st ++ [mkLog lv msg]) (requested st)).

Definition LOGGER_info := emit INFO.
Definition LOGGER_warning := emit WARNING.
Definition LOGGER_error := emit ERROR.

(* --------------------------------------------------------------------- *)
(* The thread pool                                                        *)
(* --------------------------------------------------------------------- *)

(** A finished future together with the date [future_to_date] maps it to:
    the value its task returned, or the exception the task ended with,
    which [future.result()] re-raises. *)
Definition Future : Type := string * PyResult (option DataFrame).

(** One run's scheduling choices: the order in which the pool's workers
    carry out the submitted tasks, and the order in which
    [concurrent.futures.as_completed] hands the futures back. Both are
    arbitrary rearrangements: no task is lost or repeated. A task's
    effects on the process state are taken as one step. *)
Record Scheduler := mkScheduler {
  run_order : list string -> list string;
  run_order_perm : ∀ ds, run_order ds ≡ₚ ds;
  as_completed : list Future -> list Future;
  as_completed_perm : ∀ fs, as_completed fs ≡ₚ fs
}.

(** The scheduler that keeps submission order. *)
Definition fifo : Scheduler := mkScheduler id (λ _, reflexivity _) id (λ _, reflexivity _).

(** The scheduler that runs and collects last-submitted first. *)
Definition lifo : Scheduler :=
  mkScheduler reverse reverse_Permutation reverse reverse_Permutation.

(* --------------------------------------------------------------------- *)
(* KuCoinDataFetcher                                                      *)
(* --------------------------------------------------------------------- *)

Definition base_url : string := "https://historical-data.kucoin.com".

Section KuCoinDataFetcher.

Context (W : World) (S : Scheduler).

(** Lines 81-139, with the browser session and the parsing of the page
    taken from [listing W]. *)
Definition get_available_dates (ticker frequency : string) : Py (list string) :=
  dates ← lift (listing W ticker frequency);
  LOGGER_info ("Ticker " +:+ ticker +:+ " has " +:+ pretty (length dates)
               +:+ " available dates for frequency " +:+ frequency +:+ ".");;
  mret dates.

(** [requests.get(url)] *)
Definition requests_get (url : string) : Py Response :=
  λ st, (http_get W url,
         mkRuntime (files st) (log st) (requested st ++ [url])).

(** [zipfile.ZipFile(BytesIO(content))] *)
Definition ZipFile (data : list Byte.byte) : Py (list (string * list Byte.byte)) :=
  lift (unzip W data).

(** [zip_file.namelist()[0]] *)
Definition first_name (zip_file : list (string * list Byte.byte)) : Py string :=
  match zip_file with
  | [] => raise (mkExc "IndexError" "list index out of range")
  | (name, _) :: _ => mret name
  end.

(** [zip_file.open(name)]: the member the archive's name table holds for
    [name], which is the last one of that name. *)
Definition zip_open (zip_file : list (string * list Byte.byte)) (name : string)
  : Py (list Byte.byte) :=
  match last (filter (λ m, m.1 = name) zip_file) with
  | Some m => mret m.2
  | None => raise (mkExc "KeyError" ("There is no item named " +:+ name +:+ " in the archive"))
  end.

(** [os.makedirs(path, exist_ok=True)] *)
Definition os_makedirs (path : string) : Py unit :=
  if writable W path then mret tt else raise (mkExc "PermissionError" path).

(** [df.to_csv(path, index=False)] *)
Definition to_csv (df : DataFrame) (path : string) : Py unit :=
  λ st, if writable W path
        then (Returned tt, mkRuntime (<[path:=df]> (files st)) (log st) (requested st))
        else (Raised (mkExc "PermissionError" path), st).

Section get_combined_data.

Context (ticker frequency : string) (save_to_disk : bool) (output_dir : string).

Definition zip_name (date : string) : string :=
  ticker +:+ "-" +:+ frequency +:+ "-" +:+ date +:+ ".zip".

Definition download_url (date : string) : string :=
  base_url +:+ "/data/spot/daily/klines/" +:+ ticker +:+ "/" +:+ frequency
           +:+ "/" +:+ zip_name date.

Definition csv_name (date : string) : string :=
  ticker +:+ "-" +:+ frequency +:+ "-" +:+ date +:+ ".csv".

(** Line 181 *)
Definition output_path : string := PosixPath.join output_dir [ticker; frequency].

(** Line 183: where the table of [date] is saved. *)
Definition csv_path (date : string) : string :=
  PosixPath.join output_path [csv_name date].

(** The path as the specification writes it:
    [{output_dir}/{ticker}/{frequency}/{ticker}-{frequency}-{date}.csv]. *)
Definition template_path (date : string) : string :=
  output_dir +:+ "/" +:+ ticker +:+ "/" +:+ frequency +:+ "/"
             +:+ ticker +:+ "-" +:+ frequency +:+ "-" +:+ date +:+ ".csv".

(** Lines 167-187 *)
Definition download_and_process (date : string) : Py (option DataFrame) :=
  let filename := zip_name date in
  let url := download_url date in
  response ← requests_get url;
  if bool_decide (status_code response = 200) then
    zip_file ← ZipFile (content response);
    csv_filename ← first_name zip_file;
    csv_file ← zip_open zip_file csv_filename;
    df ← lift (read_csv W csv_file);
    (if save_to_disk then
       os_makedirs output_path;;
       to_csv df (csv_path date)
     else mret tt);;
    mret (Some df)
  else
    LOGGER_error ("Failed to download data for date " +:+ date
                  +:+ ". Status code: " +:+ pretty (status_code response));;
    mret None.

(** The workers: every submitted task is carried out, its outcome
    kept in its future; an exception stays inside the future. *)
Fixpoint run_tasks (tasks : list string) (st : Runtime) : list Future * Runtime :=
  match tasks with
  | [] => ([], st)
  | date :: rest =>
      let '(r, st1) := download_and_process date st in
      let '(futures, st2) := run_tasks rest st1 in
      ((date, r) :: futures, st2)
  end.

(** Line 192: [executor.submit] for each date, one future per list
    position. *)
Definition submit_all (dates : list string) : Py (list Future) :=
  λ st, let '(futures, st') := run_tasks (run_order S dates) st in
        (Returned futures, st').

(** [future.result()] *)
Definition future_result (f : Future) : Py (option DataFrame) := lift f.2.

(** Lines 193-201: the loop over the futures as handed back. *)
Fixpoint collect (futures : list Future) (all_data : list DataFrame)
  : Py (list DataFrame) :=
  match futures with
  | [] => mret all_data
  | future :: rest =>
      let date := future.1 in
      all_data' ← try_except
        (df ← future_result future;
         match df with
         | Some df => mret (all_data ++ [df])
         | None => mret all_data
         end)
        (λ e, LOGGER_error ("Exception occurred while processing date " +:+ date
                            +:+ ": " +:+ exc_str e);;
              mret all_data);
      collect rest all_data'
  end.

(** Lines 190-201: the [with ThreadPoolExecutor()] block; leaving it
    waits for every task. *)
Definition retrieve (dates : list string) : Py (list DataFrame) :=
  future_to_date ← submit_all dates;
  collect (as_completed S future_to_date) [].

(** Lines 203-210 *)
Definition combine (all_data : list DataFrame) : Py DataFrame :=
  match all_data with
  | _ :: _ =>
      combined_df ← lift (Pandas.concat all_data);
      LOGGER_info ("Combined data contains " +:+ pretty (len combined_df) +:+ " rows.");;
      mret combined_df
  | [] =>
      LOGGER_warning ("No data was downloaded for ticker " +:+ ticker +:+ ".");;
      mret Pandas.empty
  end.

(** Lines 155-159 *)
Definition resolve_dates (dates : option (list string)) : Py (list string) :=
  match dates with
  | None => get_available_dates ticker frequency
  | Some dates =>
      available_dates ← get_available_dates ticker frequency;
      mret (filter (λ date, date ∈ available_dates) dates)
  end.

(** Lines 141-210 *)
Definition get_combined_data (dates : option (list string)) : Py DataFrame :=
  dates ← resolve_dates dates;
  match dates with
  | [] =>
      LOGGER_warning ("No dates available for ticker " +:+ ticker
                      +:+ " and frequency " +:+ frequency +:+ ".");;
      mret Pandas.empty
  | _ :: _ =>
      all_data ← retrieve dates;
      combine all_data
  end.

End get_combined_data.

End KuCoinDataFetcher.

(* --------------------------------------------------------------------- *)
(* Outcomes of fetches, as the coordinator sees them                      *)
(* --------------------------------------------------------------------- *)

(** The table of a future that returned one: the condition under which
    line 199 appends. *)
Definition success_of (f : Future) : option DataFrame :=
  match f.2 with
  | Returned (Some df) => Some df
  | Returned None | Raised _ => None
  end.

Definition succeeded (f : Future) : bool :=
  match success_of f with Some _ => true | None => false end.

Definition failed (f : Future) : bool := negb (succeeded f).

(** The tables of the successful futures, in list order. *)
Definition successes (futures : list Future) : list DataFrame :=
  omap success_of futures.

(** The record line 201 emits for a future that raises. *)
Definition collector_log (f : Future) : list LogRecord :=
  match f.2 with
  | Raised e => [mkLog ERROR ("Exception occurred while processing date " +:+ f.1
                              +:+ ": " +:+ exc_str e)]
  | Returned _ => []
  end.

(** Number of ERROR records in a log. *)
Definition count_errors (l : list LogRecord) : nat :=
  length (filter (λ r, levelname r = ERROR) l).

Definition errors (st : Runtime) : nat := count_errors (log st).

(** Number of occurrences of [x] in [l]. *)
Definition occurrences `{EqDecision A} (x : A) (l : list A) : nat :=
  length (filter (λ y, y = x) l).

Section Outcomes.

Context (W : World) (ticker frequency : string)
        (save_to_disk : bool) (output_dir : string).

(** What the fetch of [date] ends with. *)
Definition fetch_result (date : string) : PyResult (option DataFrame) :=
  (download_and_process W ticker frequency save_to_disk output_dir date boot).1.

(** The records the fetch of [date] emits itself (line 186). *)
Definition worker_log (date : string) : list LogRecord :=
  log (download_and_process W ticker frequency save_to_disk output_dir date boot).2.

(** Every record a failing fetch of [date] leaves: the worker's own
    (line 186) and the collecting loop's (line 201). *)
Definition failure_records (date : string) : list LogRecord :=
  worker_log date ++ collector_log (date, fetch_result date).

(** One finished future per requested date. *)
Definition outcomes (dates : list string) : list Future :=
  (λ date, (date, fetch_result date)) <$> dates.

End Outcomes.

(** The futures of [dates] in the order the collecting loop receives
    them: run in the workers' order, handed back in completion order. *)
Definition collected (W : World) (S : Scheduler) (ticker frequency : string)
    (save_to_disk : bool) (output_dir : string) (dates : list string) : list Future :=
  as_completed S
    (outcomes W ticker frequency save_to_disk output_dir (run_order S dates)).

(** Lines 155-159 once the listing is known: the caller's dates that are
    listed, or every listed date when the caller gives none. *)
Definition effective (dates : option (list string)) (available : list string)
  : list string :=
  match dates with
  | None => available
  | Some dates => filter (λ date, date ∈ available) dates
  end.

(** Lines 174-178 on their own: what the bytes of a response decode to. *)
Definition decode (W : World) (data : list Byte.byte) : PyResult DataFrame :=
  ((zip_file ← ZipFile W data;
    csv_filename ← first_name zip_file;
    csv_file ← zip_open zip_file csv_filename;
    lift (read_csv W csv_file)) boot).1.

(** The state after [requests.get(url)]. *)
Definition sent (url : string) (st : Runtime) : Runtime :=
  mkRuntime (files st) (log st) (requested st ++ [url]).

(* --------------------------------------------------------------------- *)
(* A small world to run the function in                                   *)
(* --------------------------------------------------------------------- *)

Module Demo.

Definition day1 : string := "2024-07-01".
Definition day2 : string := "2024-07-02".
Definition day3 : string := "2024-07-03".

Definition ten_rows : DataFrame :=
  mkDataFrame ["time"; "close"] (replicate 10 [Some "1719792000"; Some "62900.1"]).

Definition fifteen_rows : DataFrame :=
  mkDataFrame ["time"; "close"] (replicate 15 [Some "1719878400"; Some "62100.5"]).

Definition refused : PyException := mkExc "ConnectionError" "connection refused".

(** The server holds the archives of [day1] (ten rows) and [day2]
    (fifteen rows), refuses the connection for [day3] and answers 404
    for anything else; the listing shows the three days. *)
Definition serve (url : string) : PyResult Response :=
  if bool_decide (url = download_url "BTCUSDT" "1d" day1)
  then Returned (mkResponse 200 [Byte.x01])
  else if bool_decide (url = download_url "BTCUSDT" "1d" day2)
  then Returned (mkResponse 200 [Byte.x02])
  else if bool_decide (url = download_url "BTCUSDT" "1d" day3)
  then Raised refused
  else Returned (mkResponse 404 []).

Definition parse (data : list Byte.byte) : PyResult DataFrame :=
  if bool_decide (data = [Byte.x01]) then Returned ten_rows
  else if bool_decide (data = [Byte.x02]) then Returned fifteen_rows
  else Raised (mkExc "EmptyDataError" "No columns to parse from file").

Definition world : World :=
  mkWorld (λ _ _, Returned [day1; day2; day3])
          serve
          (λ data, Returned [("BTCUSDT-1d.csv", data)])
          parse
          (λ _, true).

(** The same server seen from a process that may not write anywhere. *)
Definition readonly_world : World :=
  mkWorld (listing world) (http_get world) (unzip world) (read_csv world) (λ _, false).

(** A server that answers every request with the status [code]. *)
Definition status_world (code : Z) : World :=
  mkWorld (listing world) (λ _, Returned (mkResponse code []))
          (unzip world) (read_csv world) (λ _, true).

(** A site whose listing page cannot be obtained. *)
Definition unlisted_world : World :=
  mkWorld (λ _ _, Raised (mkExc "AttributeError" "NoneType object has no attribute find_all"))
          (http_get world) (unzip world) (read_csv world) (λ _, true).

End Demo.

(* --------------------------------------------------------------------- *)
(* Files a run leaves behind                                              *)
(* --------------------------------------------------------------------- *)

(** The files after the fetch of [date], given the files [m] before it:
    with the save flag, a fetch that returns a table has stored it at
    [csv_path date] (lines 179-183). *)
Definition saved_files (W : World) (ticker frequency : string) (save_to_disk : bool)
    (output_dir : string) (m : gmap string DataFrame) (date : string)
  : gmap string DataFrame :=
  if save_to_disk then
    match fetch_result W ticker frequency save_to_disk output_dir date with
    | Returned (Some table) => <[csv_path ticker frequency output_dir date := table]> m
    | Returned None | Raised _ => m
    end
  else m.

(** The scheduler that runs the tasks in submission order and hands the
    futures back last-submitted first. *)
Definition latest_first : Scheduler :=
  mkScheduler id (λ _, reflexivity _) reverse reverse_Permutation.

(* --------------------------------------------------------------------- *)
(* re: the regular expressions of the two scrapers                        *)
(* --------------------------------------------------------------------- *)

Module Re.

(** What one position of a pattern accepts: [.] (anything but a
    newline), [\d], or a literal character. Strings hold characters
    below U+0100, among which [\d] accepts the ten ASCII digits only. *)
Inductive cls := Dot | Digit | Lit (c : ascii).

Definition newline : ascii := "010"%char.

Definition is_digit (a : ascii) : bool :=
  match a with
  | "0" | "1" | "2" | "3" | "4" | "5" | "6" | "7" | "8" | "9" => true
  | _ => false
  end%char.

Definition accepts (k : cls) (a : ascii) : bool :=
  match k with
  | Dot => negb (Ascii.eqb a newline)
  | Digit => is_digit a
  | Lit c => Ascii.eqb a c
  end.

(** The constructs the patterns are made of: one character of a class,
    [k*?], [k*], the parentheses of group 1, [^] and [$]. *)
Inductive item :=
| One (k : cls)
| Lazy (k : cls)
| Greedy (k : cls)
| Open
| Close
| Bol
| Eol.

(** A consumed character goes into group 1 while the group is open. *)
Definition keep (inside : bool) (a : ascii) (r : list ascii) : list ascii :=
  if inside then a :: r else r.

(** [$] without MULTILINE: at the end of the string, or just before a
    newline that ends the string. *)
Definition at_end (s : list ascii) : bool :=
  match s with
  | [] => true
  | [a] => Ascii.eqb a newline
  | _ :: _ :: _ => false
  end.

(** [k*?] followed by [cont]: the rest of the pattern is tried first,
    one more character is consumed only when it fails. *)
Fixpoint lazy_loop (k : cls) (inside : bool)
    (cont : bool -> list ascii -> option (list ascii))
    (bos : bool) (s : list ascii) : option (list ascii) :=
  match cont bos s with
  | Some r => Some r
  | None =>
      match s with
      | a :: s' =>
          if accepts k a then keep inside a <$> lazy_loop k inside cont false s'
          else None
      | [] => None
      end
  end.

(** [k*] followed by [cont]: characters are consumed as long as the
    class accepts them, and given back one at a time until the rest of
    the pattern matches. *)
Fixpoint greedy_loop (k : cls) (inside : bool)
    (cont : bool -> list ascii -> option (list ascii))
    (bos : bool) (s : list ascii) : option (list ascii) :=
  match s with
  | a :: s' =>
      if accepts k a then
        match greedy_loop k inside cont false s' with
        | Some r => Some (keep inside a r)
        | None => cont bos s
        end
      else cont bos s
  | [] => cont bos s
  end.

(** The backtracking matcher at one position: [run p inside bos s] is
    the text of group 1 in the first way, in the engine's order of
    preference, in which [p] matches a prefix of [s]; [bos] tells
    whether [s] starts at the beginning of the subject. *)
Fixpoint run (p : list item) (inside bos : bool) (s : list ascii)
  : option (list ascii) :=
  match p with
  | [] => Some []
  | One k :: p' =>
      match s with
      | a :: s' => if accepts k a then keep inside a <$> run p' inside false s' else None
      | [] => None
      end
  | Lazy k :: p' => lazy_loop k inside (run p' inside) bos s
  | Greedy k :: p' => greedy_loop k inside (run p' inside) bos s
  | Open :: p' => run p' true bos s
  | Close :: p' => run p' false bos s
  | Bol :: p' => if bos then run p' inside bos s else None
  | Eol :: p' => if at_end s then run p' inside bos s else None
  end.

(** The leftmost position at which the pattern matches. *)
Fixpoint search_from (p : list item) (bos : bool) (s : list ascii)
  : option (list ascii) :=
  match run p false bos s with
  | Some r => Some r
  | None =>
      match s with
      | _ :: s' => search_from p false s'
      | [] => None
      end
  end.

(** [m = re.search(p, s)] and, when [m] is not None, [m.group(1)]. *)
Definition search (p : list item) (s : string) : option string :=
  Stdlib.Strings.String.string_of_list_ascii <$> search_from p true (Stdlib.Strings.String.list_ascii_of_string s).

(** [m = re.match(p, s)] and, when [m] is not None, [m.group(1)]. *)
Definition match_ (p : list item) (s : string) : option string :=
  Stdlib.Strings.String.string_of_list_ascii <$> run p false true (Stdlib.Strings.String.list_ascii_of_string s).

(** The characters of [w], each to be matched as it is. *)
Definition lits (w : string) : list item := (λ c, One (Lit c)) <$> Stdlib.Strings.String.list_ascii_of_string w.

(** [\d{n}] *)
Definition digits (n : nat) : list item := replicate n (One Digit).

(** Group 1 of a match that consumed [u] and went on to yield [r]. *)
Definition kept (inside : bool) (u r : list ascii) : list ascii :=
  if inside then u ++ r else r.

(** The number of single-character items of a pattern. *)
Fixpoint min_length (p : list item) : nat :=
  match p with
  | [] => 0
  | One _ :: p' => Datatypes.S (min_length p')
  | _ :: p' => min_length p'
  end.

End Re.

(** Line 69: [r'/klines/(.*?)/$'], and what follows [.*?] in it. *)
Definition ticker_body : list Re.item := [Re.Close] ++ Re.lits "/" ++ [Re.Eol].

Definition ticker_re : list Re.item :=
  Re.lits "/klines/" ++ [Re.Open; Re.Lazy Re.Dot] ++ ticker_body.

(** Line 125: [r'/(.+?\.zip)$'], and what follows [.+?] in it. *)
Definition zip_body : list Re.item := Re.lits ".zip" ++ [Re.Close; Re.Eol].

Definition zip_re : list Re.item :=
  Re.lits "/" ++ [Re.Open; Re.One Re.Dot; Re.Lazy Re.Dot] ++ zip_body.

(** Line 129: [r'^.*-(\d{4}-\d{2}-\d{2})\.zip$'], and what follows [.*]
    in it. *)
Definition date_body : list Re.item :=
  Re.lits "-"
  ++ [Re.Open] ++ Re.digits 4 ++ Re.lits "-" ++ Re.digits 2 ++ Re.lits "-" ++ Re.digits 2
  ++ [Re.Close] ++ Re.lits ".zip" ++ [Re.Eol].

Definition date_re : list Re.item := [Re.Bol; Re.Greedy Re.Dot] ++ date_body.

(** Lines 69-72: the ticker in the href of a row of the ticker listing. *)
Definition ticker_of_href (href : string) : option string :=
  Re.search ticker_re href.

(** Lines 125-132: the date in the href of a row of the date listing. *)
Definition date_of_href (href : string) : option string :=
  match Re.search zip_re href with
  | Some filename => Re.match_ date_re filename
  | None => None
  end.

(* --------------------------------------------------------------------- *)
(* The two scrapers, with the browser                                     *)
(* --------------------------------------------------------------------- *)

(** A row of the listing table as the loops see it: the first [<a>] tag
    of the row, if there is one, and the [href] attribute of that tag,
    if it has one. *)
Definition Row : Type := option (option string).

(** The browser and the page it shows: whether [webdriver.Chrome]
    starts, and for a URL what [driver.get], [driver.page_source],
    [BeautifulSoup] and [soup.find('tbody', id='listing')] come to: an
    exception, no such [tbody], or the rows [find_all('tr')] gives.
    [time.sleep] is not modelled. *)
Record Browser := mkBrowser {
  chrome : PyResult unit;
  listing_rows : string -> PyResult (option (list Row))
}.

(** The process as the scrapers change it: the state of
    [get_combined_data], the PATH entry of [os.environ], if set, and the
    number of Chrome sessions started and not yet quit. *)
Record Host := mkHost {
  runtime : Runtime;
  environ_PATH : option string;
  chrome_running : nat
}.

Definition Hy (A : Type) : Type := Host -> PyResult A * Host.

#[global] Instance Hy_ret : MRet Hy := λ A a h, (Returned a, h).

#[global] Instance Hy_bind : MBind Hy := λ A B k m h,
  match m h with
  | (Returned a, h') => k a h'
  | (Raised e, h') => (Raised e, h')
  end.

(** A computation on the state of [get_combined_data], run in the host. *)
Definition in_runtime {A} (m : Py A) : Hy A := λ h,
  let '(r, rt) := m (runtime h) in
  (r, mkHost rt (environ_PATH h) (chrome_running h)).

(** A pure call that may raise. *)
Definition lift_host {A} (r : PyResult A) : Hy A := λ h, (r, h).

(** [try: m  finally: cleanup] *)
Definition try_finally {A} (m : Hy A) (cleanup : Hy unit) : Hy A := λ h,
  let '(r, h1) := m h in
  match cleanup h1 with
  | (Returned _, h2) => (r, h2)
  | (Raised e, h2) => (Raised e, h2)
  end.

Module Scrape.

(** Lines 62-72: the loop over the rows of the ticker listing. *)
Fixpoint tickers_of_rows (table_rows : list Row) (tickers : list string)
  : PyResult (list string) :=
  match table_rows with
  | [] => Returned tickers
  | row :: rest =>
      match row with
      | Some a_tag =>
          match a_tag with
          | Some href =>
              match ticker_of_href href with
              | Some ticker => tickers_of_rows rest (tickers ++ [ticker])
              | None => tickers_of_rows rest tickers
              end
          | None => Raised (mkExc "KeyError" "'href'")
          end
      | None => tickers_of_rows rest tickers
      end
  end.

(** Lines 118-132: the loop over the rows of the date listing. *)
Fixpoint dates_of_rows (table_rows : list Row) (dates : list string)
  : PyResult (list string) :=
  match table_rows with
  | [] => Returned dates
  | row :: rest =>
      match row with
      | Some a_tag =>
          match a_tag with
          | Some href =>
              match date_of_href href with
              | Some date_str => dates_of_rows rest (dates ++ [date_str])
              | None => dates_of_rows rest dates
              end
          | None => Raised (mkExc "KeyError" "'href'")
          end
      | None => dates_of_rows rest dates
      end
  end.

Section Scrapers.

Context (B : Browser) (chrome_driver_path : string).

(** Lines 30 and 86:
    [os.environ['PATH'] += os.pathsep + self.chrome_driver_path] *)
Definition extend_PATH : Hy unit := λ h,
  match environ_PATH h with
  | Some path =>
      (Returned tt,
       mkHost (runtime h) (Some (path +:+ ":" +:+ chrome_driver_path)) (chrome_running h))
  | None => (Raised (mkExc "KeyError" "'PATH'"), h)
  end.

(** [webdriver.Chrome(options=chrome_options)] *)
Definition webdriver_Chrome : Hy unit := λ h,
  match chrome B with
  | Returned _ =>
      (Returned tt, mkHost (runtime h) (environ_PATH h) (Datatypes.S (chrome_running h)))
  | Raised e => (Raised e, h)
  end.

(** [driver.quit()] *)
Definition driver_quit : Hy unit := λ h,
  (Returned tt, mkHost (runtime h) (environ_PATH h) (pred (chrome_running h))).

(** [driver.get(url)] up to
    [soup.find('tbody', id='listing').find_all('tr')] *)
Definition find_rows (url : string) : Hy (list Row) :=
  match listing_rows B url with
  | Returned (Some table_rows) => mret table_rows
  | Returned None =>
      lift_host (Raised (mkExc "AttributeError"
                           "'NoneType' object has no attribute 'find_all'"))
  | Raised e => lift_host (Raised e)
  end.

Definition tickers_url : string := base_url +:+ "/?prefix=data/spot/daily/klines".

Definition dates_url (ticker frequency : string) : string :=
  base_url +:+ "/?prefix=data/spot/daily/klines/" +:+ ticker +:+ "/" +:+ frequency +:+ "/".

(** Lines 25-79 *)
Definition get_tickers : Hy (list string) :=
  extend_PATH;;
  webdriver_Chrome;;
  try_finally
    (table_rows ← find_rows tickers_url;
     tickers ← lift_host (tickers_of_rows table_rows []);
     in_runtime (LOGGER_info ("Retrieved " +:+ pretty (length tickers) +:+ " tickers."));;
     mret tickers)
    driver_quit.

(** Lines 81-139 *)
Definition get_available_dates (ticker frequency : string) : Hy (list string) :=
  extend_PATH;;
  webdriver_Chrome;;
  try_finally
    (table_rows ← find_rows (dates_url ticker frequency);
     dates ← lift_host (dates_of_rows table_rows []);
     in_runtime (LOGGER_info ("Ticker " +:+ ticker +:+ " has " +:+ pretty (length dates)
                              +:+ " available dates for frequency " +:+ frequency +:+ "."));;
     mret dates)
    driver_quit.

(** What [get_available_dates] ends with when PATH is set. *)
Definition listed_dates (ticker frequency : string) : PyResult (list string) :=
  match chrome B with
  | Raised e => Raised e
  | Returned _ =>
      match listing_rows B (dates_url ticker frequency) with
      | Raised e => Raised e
      | Returned None =>
          Raised (mkExc "AttributeError" "'NoneType' object has no attribute 'find_all'")
      | Returned (Some table_rows) => dates_of_rows table_rows []
      end
  end.

(** What [get_tickers] ends with when PATH is set. *)
Definition listed_tickers : PyResult (list string) :=
  match chrome B with
  | Raised e => Raised e
  | Returned _ =>
      match listing_rows B tickers_url with
      | Raised e => Raised e
      | Returned None =>
          Raised (mkExc "AttributeError" "'NoneType' object has no attribute 'find_all'")
      | Returned (Some table_rows) => tickers_of_rows table_rows []
      end
  end.

(** The world of [get_combined_data] in which the listing is what the
    browser shows. *)
Definition world_with (W : World) : World :=
  mkWorld listed_dates (http_get W) (unzip W) (read_csv W) (writable W).

(** Lines 141-210 with [self.get_available_dates] as the scraper it is:
    the dates are resolved in the host, the rest runs as before. *)
Definition get_combined_data (W : World) (S : Scheduler) (ticker frequency : string)
    (save_to_disk : bool) (output_dir : string) (dates : option (list string))
  : Hy DataFrame :=
  dates ← match dates with
          | None => get_available_dates ticker frequency
          | Some dates =>
              available_dates ← get_available_dates ticker frequency;
              mret (filter (λ date, date ∈ available_dates) dates)
          end;
  match dates with
  | [] =>
      in_runtime (LOGGER_warning ("No dates available for ticker " +:+ ticker
                                  +:+ " and frequency " +:+ frequency +:+ "."));;
      mret Pandas.empty
  | _ :: _ =>
      all_data ← in_runtime (retrieve W S ticker frequency save_to_disk output_dir dates);
      in_runtime (combine ticker all_data)
  end.

End Scrapers.

End Scrape.

(** A date as [\d{4}-\d{2}-\d{2}] writes it. *)
Definition date_shape (d : string) : bool :=
  match Stdlib.Strings.String.list_ascii_of_string d with
  | [y1; y2; y3; y4; s1; m1; m2; s2; d1; d2] =>
      Re.is_digit y1 && Re.is_digit y2 && Re.is_digit y3 && Re.is_digit y4
      && Ascii.eqb s1 "-" && Re.is_digit m1 && Re.is_digit m2
      && Ascii.eqb s2 "-" && Re.is_digit d1 && Re.is_digit d2
  | _ => false
  end.

(** Whether [w] occurs in [s], on the characters and on strings. *)
Fixpoint occurs (w s : list ascii) : bool :=
  bool_decide (take (length w) s = w)
  || match s with
     | [] => false
     | _ :: s' => occurs w s'
     end.

Definition contains (w s : string) : bool :=
  occurs (Stdlib.Strings.String.list_ascii_of_string w)
         (Stdlib.Strings.String.list_ascii_of_string s).

(** No newline in [s]. *)
Definition one_line (s : string) : bool :=
  forallb (λ a, negb (Ascii.eqb a Re.newline)) (Stdlib.Strings.String.list_ascii_of_string s).

(** The end of a string that [$] accepts: nothing, or one newline. *)
Definition line_end (e : string) : bool :=
  Re.at_end (Stdlib.Strings.String.list_ascii_of_string e).

(** A listing page to run the scrapers on. *)
Module DemoPage.

Definition ticker_rows : list Row :=
  [ None;
    Some (Some "?prefix=data/spot/daily/");
    Some (Some "?prefix=data/spot/daily/klines/BTCUSDT/");
    Some (Some "?prefix=data/spot/daily/klines/ETHUSDT/") ].

Definition date_rows : list Row :=
  [ Some (Some "?prefix=data/spot/daily/klines/BTCUSDT/");
    Some (Some "?prefix=data/spot/daily/klines/BTCUSDT/1d/BTCUSDT-1d-2024-07-01.zip");
    None;
    Some (Some "?prefix=data/spot/daily/klines/BTCUSDT/1d/BTCUSDT-1d-2024-07-02.zip");
    Some (Some "?prefix=data/spot/daily/klines/BTCUSDT/1d/BTCUSDT-1d-2024-07-03.zip");
    Some (Some "?prefix=data/spot/daily/klines/BTCUSDT/1d/README.txt") ].


(** A page in which a row's link has no [href]. *)
Definition broken_browser : Browser :=
  mkBrowser (Returned tt) (λ _, Returned (Some [Some (Some "x/klines/A/"); Some None])).


End DemoPage.

(* --------------------------------------------------------------------- *)
(* Proof support                                                          *)
(* --------------------------------------------------------------------- *)

Ltac py_unfold :=
  unfold mbind, Py_bind, bind, mret, Py_ret, ret, raise, lift, try_except,
    LOGGER_info, LOGGER_warning, LOGGER_error, emit in *.

Lemma count_errors_app l1 l2 :
  count_errors (l1 ++ l2) = (count_errors l1 + count_errors l2)%nat.
Proof. unfold count_errors. by rewrite filter_app, length_app. Qed.

Lemma count_errors_other l r :
  levelname r ≠ ERROR → count_errors (l ++ [r]) = count_errors l.
Proof.
  intros H. rewrite count_errors_app. unfold count_errors at 2.
  rewrite filter_cons, decide_False by done. simpl. lia.
Qed.

Lemma occurrences_app `{EqDecision A} (x : A) l1 l2 :
  occurrences x (l1 ++ l2) = (occurrences x l1 + occurrences x l2)%nat.
Proof. unfold occurrences. by rewrite filter_app, length_app. Qed.

Lemma occurrences_cons `{EqDecision A} (x y : A) l :
  occurrences x (y :: l)
  = ((if decide (y = x) then 1 else 0) + occurrences x l)%nat.
Proof. unfold occurrences. rewrite filter_cons. by case_decide. Qed.

Lemma occurrences_perm `{EqDecision A} (x : A) l1 l2 :
  l1 ≡ₚ l2 → occurrences x l1 = occurrences x l2.
Proof. intros Hp. unfold occurrences. by rewrite Hp. Qed.

Lemma count_errors_perm l1 l2 : l1 ≡ₚ l2 → count_errors l1 = count_errors l2.
Proof. intros Hp. unfold count_errors. by rewrite Hp. Qed.

Lemma successes_app f1 f2 : successes (f1 ++ f2) = successes f1 ++ successes f2.
Proof. apply omap_app. Qed.

Lemma successes_perm f1 f2 : f1 ≡ₚ f2 → successes f1 ≡ₚ successes f2.
Proof. intros Hp. unfold successes. by rewrite Hp. Qed.

Lemma successes_length futures :
  length (successes futures) = length (filter succeeded futures).
Proof.
  induction futures as [|f futures IH]; [done|].
  unfold successes in *. cbn [omap list_omap]. rewrite filter_cons.
  destruct (success_of f) eqn:E.
  - rewrite decide_True; [simpl; by rewrite IH|]. unfold succeeded. by rewrite E.
  - rewrite decide_False; [done|]. unfold succeeded. rewrite E. simpl. tauto.
Qed.

Lemma succeeded_failed_length (futures : list Future) :
  (length (filter succeeded futures) + length (filter failed futures)
   = length futures)%nat.
Proof.
  unfold failed. induction futures as [|f futures IH]; [done|].
  rewrite !filter_cons. destruct (succeeded f) eqn:E; simpl; lia.
Qed.

Section Facts.

Context (W : World) (S : Scheduler) (ticker frequency : string)
        (save_to_disk : bool) (output_dir : string).

Local Abbreviation fetch := (download_and_process W ticker frequency save_to_disk output_dir).
Local Abbreviation result := (fetch_result W ticker frequency save_to_disk output_dir).
Local Abbreviation wlog := (worker_log W ticker frequency save_to_disk output_dir).
Local Abbreviation url := (download_url ticker frequency).

(** A fetch ends the same way whatever the state it starts from, sends
    exactly one request, and only adds to the log. *)
Lemma fetch_frame date st :
  (fetch date st).1 = result date
  ∧ log (fetch date st).2 = log st ++ wlog date
  ∧ requested (fetch date st).2 = requested st ++ [url date].
Proof.
  unfold fetch_result, worker_log, download_and_process, requests_get, ZipFile,
    first_name, zip_open, os_makedirs, to_csv.
  py_unfold. simpl.
  destruct (http_get W (url date)) as [resp|e]; simpl; [|by rewrite app_nil_r].
  case_bool_decide; simpl; [|done].
  destruct (unzip W (content resp)) as [[|[name data] members]|e]; simpl;
    try by rewrite app_nil_r.
  destruct (last _) as [m|]; simpl; [|by rewrite app_nil_r].
  destruct (read_csv W m.2) as [df|e]; simpl; [|by rewrite app_nil_r].
  destruct save_to_disk; simpl; [|by rewrite app_nil_r].
  destruct (writable W _); simpl; [|by rewrite app_nil_r].
  destruct (writable W _); simpl; by rewrite app_nil_r.
Qed.

Lemma fetch_eq date st :
  ∃ st', fetch date st = (result date, st')
         ∧ log st' = log st ++ wlog date
         ∧ requested st' = requested st ++ [url date].
Proof.
  destruct (fetch_frame date st) as (H1 & H2 & H3).
  destruct (fetch date st) as [r st'] eqn:E. simpl in *. subst. eauto.
Qed.

Local Abbreviation outs := (outcomes W ticker frequency save_to_disk output_dir).
Local Abbreviation collected := (collected W S ticker frequency save_to_disk output_dir).

(** The worker's own record: one ERROR record exactly when the fetch
    returns None. *)
Lemma worker_log_errors date :
  count_errors (wlog date)
  = match result date with Returned None => 1%nat | _ => 0%nat end.
Proof.
  unfold fetch_result, worker_log, download_and_process, requests_get, ZipFile,
    first_name, zip_open, os_makedirs, to_csv.
  py_unfold. simpl.
  destruct (http_get W (url date)) as [resp|e]; simpl; [|done].
  case_bool_decide; simpl; [|done].
  destruct (unzip W (content resp)) as [[|[name data] members]|e]; simpl;
    try done.
  destruct (last _) as [m|]; simpl; [|done].
  destruct (read_csv W m.2) as [df|e]; simpl; [|done].
  destruct save_to_disk; simpl; [|done].
  destruct (writable W _); simpl; [|done].
  by destruct (writable W _).
Qed.

Lemma collector_log_errors (f : Future) :
  count_errors (collector_log f)
  = match f.2 with Raised _ => 1%nat | Returned _ => 0%nat end.
Proof. unfold collector_log. by destruct f.2. Qed.

(** Each failed fetch leaves exactly one ERROR record, each successful
    one none. *)
Lemma failure_records_count dates :
  (count_errors (dates ≫= wlog) + count_errors (outs dates ≫= collector_log)
   = length (filter failed (outs dates)))%nat.
Proof.
  induction dates as [|d dates IH]; [done|].
  unfold outcomes in *. cbn [mbind list_bind fmap list_fmap].
  rewrite !count_errors_app, filter_cons, worker_log_errors, collector_log_errors.
  unfold failed at 1, succeeded, success_of. simpl.
  destruct (result d) as [[df|]|e]; simpl; lia.
Qed.

Lemma failure_records_split dates :
  (dates ≫= wlog) ++ (outs dates ≫= collector_log)
  ≡ₚ dates ≫= failure_records W ticker frequency save_to_disk output_dir.
Proof.
  induction dates as [|d dates IH]; [done|].
  unfold outcomes, failure_records in *.
  cbn [mbind list_bind fmap list_fmap foldr].
  rewrite <- IH, <- !app_assoc. f_equiv.
  rewrite !app_assoc. f_equiv. apply Permutation_app_comm.
Qed.

Lemma run_tasks_eq tasks st :
  ∃ st', run_tasks W ticker frequency save_to_disk output_dir tasks st
         = (outs tasks, st')
         ∧ log st' = log st ++ (tasks ≫= wlog)
         ∧ requested st' = requested st ++ (url <$> tasks).
Proof.
  revert st. induction tasks as [|d tasks IH]; intros st.
  - exists st. by rewrite !app_nil_r.
  - destruct (fetch_eq d st) as (st1 & E1 & L1 & R1).
    destruct (IH st1) as (st2 & E2 & L2 & R2).
    exists st2. cbn [run_tasks]. rewrite E1, E2. split; [done|].
    rewrite L2, L1, R2, R1. cbn [mbind list_bind fmap list_fmap].
    by rewrite <- !app_assoc.
Qed.

Lemma collect_eq (futures : list Future) all_data st :
  ∃ st', collect futures all_data st
         = (Returned (all_data ++ successes futures), st')
         ∧ log st' = log st ++ (futures ≫= collector_log)
         ∧ requested st' = requested st
         ∧ files st' = files st.
Proof.
  revert all_data st. induction futures as [|[d r] futures IH]; intros all_data st.
  - exists st. by rewrite !app_nil_r.
  - cbn [collect]. unfold future_result. py_unfold.
    unfold successes, collector_log. cbn [omap list_omap mbind list_bind].
    unfold success_of at 1. simpl.
    destruct r as [[df|]|e]; simpl.
    + destruct (IH (all_data ++ [df]) st) as (st' & E & L & R & F).
      exists st'. rewrite E. by rewrite <- app_assoc.
    + destruct (IH all_data st) as (st' & E & L & R & F). by exists st'.
    + match goal with |- context [collect futures all_data ?s] =>
        destruct (IH all_data s) as (st' & E & L & R & F) end.
      exists st'. rewrite E, L. simpl. by rewrite <- app_assoc.
Qed.

Lemma collected_perm dates : collected dates ≡ₚ outs dates.
Proof.
  unfold collected, outcomes. by rewrite as_completed_perm, run_order_perm.
Qed.

Lemma retrieve_eq dates st :
  ∃ st', retrieve W S ticker frequency save_to_disk output_dir dates st
         = (Returned (successes (collected dates)), st')
         ∧ log st' = log st ++ (run_order S dates ≫= wlog)
                       ++ (collected dates ≫= collector_log)
         ∧ requested st' = requested st ++ (url <$> run_order S dates).
Proof.
  unfold retrieve, submit_all. py_unfold.
  destruct (run_tasks_eq (run_order S dates) st) as (st1 & E1 & L1 & R1).
  rewrite E1.
  destruct (collect_eq (as_completed S (outs (run_order S dates))) [] st1)
    as (st2 & E2 & L2 & R2 & _).
  exists st2. rewrite E2. split; [done|].
  by rewrite L2, L1, R2, R1, <- app_assoc.
Qed.

Lemma retrieve_errors dates st st' all_data :
  retrieve W S ticker frequency save_to_disk output_dir dates st
  = (Returned all_data, st') →
  errors st' = (errors st + length (filter failed (outs dates)))%nat.
Proof.
  intros E. destruct (retrieve_eq dates st) as (st2 & E2 & L & _).
  rewrite E in E2. injection E2 as _ <-.
  unfold errors. rewrite L, !count_errors_app, <- failure_records_count.
  rewrite (count_errors_perm (run_order S dates ≫= wlog) (dates ≫= wlog))
    by (by rewrite run_order_perm).
  rewrite (count_errors_perm (collected dates ≫= collector_log)
             (outs dates ≫= collector_log)) by (by rewrite collected_perm).
  lia.
Qed.

End Facts.

(* --------------------------------------------------------------------- *)
(* concat                                                                 *)
(* --------------------------------------------------------------------- *)

Lemma concat_frames_nil : concat_frames [] = Pandas.empty.
Proof. reflexivity. Qed.

Lemma block_length cols df : length (block cols df) = len df.
Proof. unfold block, len. by rewrite length_fmap. Qed.

Lemma bind_block_length cols dfs :
  length (dfs ≫= block cols) = sum_list (len <$> dfs).
Proof.
  induction dfs as [|df dfs IH]; [done|].
  cbn [mbind list_bind fmap list_fmap sum_list sum_list_with].
  rewrite length_app, block_length.
  change (foldr app [] (list_fmap _ _ (block cols) dfs)) with (dfs ≫= block cols).
  by rewrite IH.
Qed.

(** [concat] keeps every row of every frame and adds none. *)
Lemma concat_frames_len dfs : len (concat_frames dfs) = sum_list (len <$> dfs).
Proof. unfold len at 1, concat_frames. simpl. apply bind_block_length. Qed.

Lemma concat_frames_row dfs row :
  row ∈ rows (concat_frames dfs) →
  ∃ df, df ∈ dfs ∧ row ∈ block (columns (concat_frames dfs)) df.
Proof.
  unfold concat_frames. simpl. intros H.
  apply list_elem_of_bind in H as (df & Hrow & Hdf). by exists df.
Qed.

Lemma occurrences_bind_ge `{EqDecision A} `{EqDecision B}
    (f : A → list B) (a : A) (y : B) (l : list A) :
  (occurrences a l * occurrences y (f a) ≤ occurrences y (l ≫= f))%nat.
Proof.
  induction l as [|x l IH]; [done|].
  cbn [mbind list_bind]. rewrite occurrences_app, occurrences_cons.
  change (foldr app [] (list_fmap _ _ f l)) with (l ≫= f).
  case_decide; subst; lia.
Qed.

Lemma successes_elem (futures : list Future) df :
  df ∈ successes futures ↔ ∃ date, (date, Returned (Some df)) ∈ futures.
Proof.
  unfold successes. rewrite list_elem_of_omap. split.
  - intros ([d r] & Hin & Hs). unfold success_of in Hs. simpl in Hs.
    destruct r as [[t|]|e]; simplify_eq. by exists d.
  - intros (d & Hin). by exists (d, Returned (Some df)).
Qed.

(* --------------------------------------------------------------------- *)
(* The whole call                                                         *)
(* --------------------------------------------------------------------- *)

Section Whole.

Context (W : World) (S : Scheduler) (ticker frequency : string)
        (save_to_disk : bool) (output_dir : string).

Local Abbreviation outs := (outcomes W ticker frequency save_to_disk output_dir).
Local Abbreviation url := (download_url ticker frequency).
Local Abbreviation run := (get_combined_data W S ticker frequency save_to_disk output_dir).
Local Abbreviation gathered := (collected W S ticker frequency save_to_disk output_dir).

Lemma combine_eq all_data st :
  ∃ r, combine ticker all_data st
       = (Returned (concat_frames all_data),
          mkRuntime (files st) (log st ++ [r]) (requested st))
       ∧ levelname r ≠ ERROR.
Proof.
  destruct all_data as [|df dfs]; unfold combine; py_unfold; simpl;
    eexists; split; try reflexivity; done.
Qed.

Lemma resolve_dates_eq dates available st :
  listing W ticker frequency = Returned available →
  ∃ r, resolve_dates W ticker frequency dates st
       = (Returned (effective dates available),
          mkRuntime (files st) (log st ++ [r]) (requested st))
       ∧ levelname r = INFO.
Proof.
  intros HL. unfold resolve_dates, get_available_dates. py_unfold.
  destruct dates as [ds|]; simpl; rewrite HL; simpl; eexists; split;
    try reflexivity; done.
Qed.

Lemma resolve_dates_raise dates e st :
  listing W ticker frequency = Raised e →
  resolve_dates W ticker frequency dates st = (Raised e, st).
Proof.
  intros HL. unfold resolve_dates, get_available_dates. py_unfold.
  destruct dates as [ds|]; simpl; by rewrite HL.
Qed.

Lemma gathered_nil : gathered [] = [].
Proof.
  unfold collected. apply Permutation_nil_r.
  rewrite as_completed_perm. unfold outcomes.
  pose proof (run_order_perm S []) as Hr. apply Permutation_nil_r in Hr.
  by rewrite Hr.
Qed.

(** The call, when the listing is obtained: it returns the
    concatenation of the successful tables in the order the futures
    were handed back, has sent one request per requested date, and has
    logged, besides two records below ERROR level, the failure records
    of the requested dates. *)
Lemma get_combined_data_eq dates available st :
  listing W ticker frequency = Returned available →
  let eff := effective dates available in
  ∃ st' r0 r1,
    run dates st = (Returned (concat_frames (successes (gathered eff))), st')
    ∧ levelname r0 = INFO ∧ levelname r1 ≠ ERROR
    ∧ log st' ≡ₚ log st ++ r0 :: r1
                   :: (eff ≫= failure_records W ticker frequency save_to_disk output_dir)
    ∧ requested st' ≡ₚ requested st ++ (url <$> eff).
Proof.
  intros HL eff. unfold get_combined_data. unfold mbind at 1, Py_bind, bind.
  destruct (resolve_dates_eq dates available st HL) as (r0 & -> & Hr0).
  fold eff. destruct eff as [|d ds] eqn:Eeff.
  - py_unfold. simpl. rewrite gathered_nil.
    eexists _, r0, (mkLog WARNING _). split; [reflexivity|]. simpl.
    split; [done|]. split; [done|]. rewrite app_nil_r.
    split; [|done]. rewrite <- app_assoc. simpl. apply Permutation_refl.
  - unfold mbind, Py_bind, bind.
    match goal with |- context [retrieve _ _ _ _ _ _ _ ?s] =>
      destruct (retrieve_eq W S ticker frequency save_to_disk output_dir (d :: ds) s)
        as (st1 & E1 & L1 & R1)
    end.
    rewrite E1.
    destruct (combine_eq (successes (gathered (d :: ds))) st1) as (r1 & -> & Hr1).
    eexists _, r0, r1. split; [reflexivity|]. simpl.
    split; [done|]. split; [done|]. split.
    + rewrite L1. cbn [log].
      rewrite (run_order_perm S (d :: ds)).
      rewrite (collected_perm W S ticker frequency save_to_disk output_dir (d :: ds)).
      rewrite failure_records_split, <- !app_assoc. f_equiv.
      cbn [app]. f_equiv. symmetry. apply Permutation_cons_append.
    + rewrite R1. simpl. by rewrite run_order_perm.
Qed.

Lemma get_combined_data_errors dates available st :
  listing W ticker frequency = Returned available →
  errors (run dates st).2
  = (errors st + length (filter failed (outs (effective dates available))))%nat.
Proof.
  intros HL.
  destruct (get_combined_data_eq dates available st HL)
    as (st' & r0 & r1 & E & H0 & H1 & L & _).
  rewrite E. unfold errors. simpl. rewrite (count_errors_perm _ _ L).
  rewrite count_errors_app. f_equal.
  change (r0 :: r1 :: ?l) with ([r0] ++ [r1] ++ l).
  rewrite !count_errors_app.
  rewrite <- (count_errors_perm _ _
                (failure_records_split W ticker frequency save_to_disk output_dir _)).
  rewrite count_errors_app, (failure_records_count W).
  unfold count_errors at 1 2. rewrite !filter_cons.
  rewrite !decide_False by (rewrite ?H0; done). simpl. lia.
Qed.

End Whole.

(* --------------------------------------------------------------------- *)
(* Properties                                                             *)
(* --------------------------------------------------------------------- *)

(** C1. Whatever dates are dispatched and however the pool schedules
    them, the [with] block returns the list of collected tables, one per
    successful date, and has logged one ERROR record per failed date, so
    that successes plus failures make up the number of requested dates;
    by then every date's request has been sent. *)
Theorem C1_every_date_resolves_once
    (W : World) (S : Scheduler) (ticker frequency : string)
    (save_to_disk : bool) (output_dir : string) (dates : list string) (st : Runtime) :
  ∃ all_data st',
    retrieve W S ticker frequency save_to_disk output_dir dates st
    = (Returned all_data, st')
    ∧ length all_data
      = length (filter succeeded (outcomes W ticker frequency save_to_disk output_dir dates))
    ∧ (errors st' - errors st)%nat
      = length (filter failed (outcomes W ticker frequency save_to_disk output_dir dates))
    ∧ (length all_data + (errors st' - errors st) = length dates)%nat
    ∧ requested st' ≡ₚ requested st ++ (download_url ticker frequency <$> dates).
Proof.
  destruct (retrieve_eq W S ticker frequency save_to_disk output_dir dates st)
    as (st' & E & L & R).
  pose proof (retrieve_errors _ _ _ _ _ _ _ _ _ _ E) as Herr.
  pose proof (succeeded_failed_length
                (outcomes W ticker frequency save_to_disk output_dir dates)) as Hsum.
  assert (length (successes (collected W S ticker frequency save_to_disk output_dir dates))
          = length (filter succeeded
                      (outcomes W ticker frequency save_to_disk output_dir dates))) as Hlen.
  { rewrite <- successes_length. apply Permutation_length, successes_perm, collected_perm. }
  eexists _, st'. split; [exact E|].
  assert (length (outcomes W ticker frequency save_to_disk output_dir dates)
          = length dates) as Hn by (unfold outcomes; by rewrite length_fmap).
  repeat split; [done|lia|lia|].
  rewrite R. by rewrite run_order_perm.
Qed.

(** C2. Over any sequence of finished futures, the loop and the final
    concat return a frame whose row count is the sum of the row counts
    of the successful futures' tables, every row of which is a row of the
    table of some successful future, and which is the frame obtained from
    the successful futures alone. *)
Theorem C2_combined_rows_from_successes
    (ticker : string) (futures : list Future) (st : Runtime) :
  ∃ df st',
    (all_data ← collect futures []; combine ticker all_data) st = (Returned df, st')
    ∧ len df = sum_list (len <$> successes futures)
    ∧ (∀ row, row ∈ rows df →
         ∃ date table, (date, Returned (Some table)) ∈ futures
                       ∧ row ∈ block (columns df) table)
    ∧ ((all_data ← collect (filter succeeded futures) []; combine ticker all_data) st).1
      = Returned df.
Proof.
  assert (∀ fs, ∃ st', (all_data ← collect fs []; combine ticker all_data) st
                       = (Returned (concat_frames (successes fs)), st')) as Hrun.
  { intros fs. unfold mbind, Py_bind, bind.
    destruct (collect_eq fs [] st) as (st1 & -> & _). simpl.
    destruct (combine_eq ticker (successes fs) st1) as (r & -> & _). eauto. }
  destruct (Hrun futures) as (st' & E).
  exists (concat_frames (successes futures)), st'. split; [exact E|].
  split; [apply concat_frames_len|]. split.
  - intros row Hrow. apply concat_frames_row in Hrow as (t & Ht & Hin).
    apply successes_elem in Ht as (d & Hd). eauto.
  - destruct (Hrun (filter succeeded futures)) as (st2 & ->). simpl.
    do 2 f_equal. clear. induction futures as [|f fs IH]; [done|].
    rewrite filter_cons. unfold successes in *. cbn [omap list_omap].
    destruct (success_of f) eqn:Ef.
    + rewrite decide_True by (unfold succeeded; by rewrite Ef).
      cbn [omap list_omap]. by rewrite Ef, IH.
    + rewrite decide_False; [done|]. unfold succeeded. rewrite Ef. simpl. tauto.
Qed.

Lemma successes_outcomes_app W ticker frequency save_to_disk output_dir l1 l2 :
  successes (outcomes W ticker frequency save_to_disk output_dir (l1 ++ l2))
  = successes (outcomes W ticker frequency save_to_disk output_dir l1)
    ++ successes (outcomes W ticker frequency save_to_disk output_dir l2).
Proof. unfold outcomes. by rewrite fmap_app, successes_app. Qed.

Lemma successes_all_length W ticker frequency save_to_disk output_dir dates :
  (∀ d, d ∈ dates →
        succeeded (d, fetch_result W ticker frequency save_to_disk output_dir d) = true) →
  length (successes (outcomes W ticker frequency save_to_disk output_dir dates))
  = length dates.
Proof.
  induction dates as [|d dates IH]; intros Hall; [done|].
  unfold outcomes, successes in *. cbn [fmap list_fmap omap list_omap].
  pose proof (Hall d ltac:(left)) as Hd. unfold succeeded in Hd.
  destruct (success_of _); [|done]. simpl. f_equal. apply IH.
  intros d' Hd'. apply Hall. by right.
Qed.

(** C3. When the fetch of one date raises, the loop catches the
    exception and logs an ERROR record naming that date; the block still
    returns, and the tables it has collected are those of the successful
    fetches among the other dates, as if the failing date had not been
    requested: if the other n-1 dates all succeed, n-1 tables are
    collected. *)
Theorem C3_exception_is_contained
    (W : World) (S : Scheduler) (ticker frequency : string)
    (save_to_disk : bool) (output_dir : string)
    (before after : list string) (date : string) (e : PyException) (st : Runtime) :
  fetch_result W ticker frequency save_to_disk output_dir date = Raised e →
  ∃ all_data st',
    retrieve W S ticker frequency save_to_disk output_dir (before ++ date :: after) st
    = (Returned all_data, st')
    ∧ mkLog ERROR ("Exception occurred while processing date " +:+ date
                   +:+ ": " +:+ exc_str e) ∈ log st'
    ∧ all_data
      ≡ₚ successes (outcomes W ticker frequency save_to_disk output_dir (before ++ after))
    ∧ ((∀ d, d ∈ before ++ after →
             succeeded (d, fetch_result W ticker frequency save_to_disk output_dir d) = true) →
       length all_data = length (before ++ after)).
Proof.
  intros Hraise.
  destruct (retrieve_eq W S ticker frequency save_to_disk output_dir
              (before ++ date :: after) st) as (st' & E & L & R).
  pose proof (collected_perm W S ticker frequency save_to_disk output_dir
                (before ++ date :: after)) as Hperm.
  assert (successes (collected W S ticker frequency save_to_disk output_dir
                       (before ++ date :: after))
          ≡ₚ successes (outcomes W ticker frequency save_to_disk output_dir
                          (before ++ after))) as Hsucc.
  { rewrite (successes_perm _ _ Hperm).
    rewrite !successes_outcomes_app.
    change (date :: after) with ([date] ++ after).
    rewrite successes_outcomes_app.
    unfold outcomes at 2, successes at 2, success_of. simpl. by rewrite Hraise. }
  eexists _, st'. split; [exact E|]. split; [|split; [exact Hsucc|]].
  - rewrite L. apply elem_of_app. right. apply elem_of_app. right.
    apply list_elem_of_bind. exists (date, Raised e). split.
    + unfold collector_log. simpl. by left.
    + rewrite Hperm. unfold outcomes. apply list_elem_of_fmap.
      exists date. rewrite Hraise. split; [done|]. apply elem_of_app. right. by left.
  - intros Hall. rewrite (Permutation_length Hsucc).
    by apply successes_all_length.
Qed.

Lemma C3_exception_is_contained_witness :
  fetch_result Demo.world "BTCUSDT" "1d" false "kucoin_data" Demo.day3
  = Raised Demo.refused
  ∧ ∃ all_data st',
      retrieve Demo.world lifo "BTCUSDT" "1d" false "kucoin_data"
        ([Demo.day1] ++ Demo.day3 :: [Demo.day2]) boot
      = (Returned all_data, st')
      ∧ mkLog ERROR ("Exception occurred while processing date " +:+ Demo.day3
                     +:+ ": " +:+ exc_str Demo.refused) ∈ log st'
      ∧ all_data
        ≡ₚ successes (outcomes Demo.world "BTCUSDT" "1d" false "kucoin_data"
                        ([Demo.day1] ++ [Demo.day2]))
      ∧ ((∀ d, d ∈ [Demo.day1] ++ [Demo.day2] →
               succeeded (d, fetch_result Demo.world "BTCUSDT" "1d" false
                                "kucoin_data" d) = true) →
         length all_data = length ([Demo.day1] ++ [Demo.day2])).
Proof.
  split; [vm_compute; reflexivity|].
  apply (C3_exception_is_contained Demo.world lifo "BTCUSDT" "1d" false
           "kucoin_data" [Demo.day1] [Demo.day2] Demo.day3 Demo.refused boot).
  vm_compute; reflexivity.
Defined.

(** C4. Over any sequence of finished futures none of which succeeded,
    the empty sequence included, the loop and the final step return
    [pd.DataFrame()], the frame with no columns and no rows, and raise
    nothing. *)
Theorem C4_no_success_gives_empty_frame
    (ticker : string) (futures : list Future) (st : Runtime) :
  (∀ f, f ∈ futures → succeeded f = false) →
  ∃ st', (all_data ← collect futures []; combine ticker all_data) st
         = (Returned Pandas.empty, st').
Proof.
  intros Hnone. unfold mbind, Py_bind, bind.
  destruct (collect_eq futures [] st) as (st1 & -> & _). simpl.
  assert (successes futures = []) as ->.
  { induction futures as [|f fs IH]; [done|].
    unfold successes in *. cbn [omap list_omap].
    pose proof (Hnone f ltac:(left)) as Hf. unfold succeeded in Hf.
    destruct (success_of f); [done|]. apply IH. intros g Hg. apply Hnone. by right. }
  unfold combine. py_unfold. eauto.
Qed.

Lemma C4_no_success_gives_empty_frame_witness :
  (∀ f, f ∈ [(Demo.day3, Raised Demo.refused); ("2030-01-01", Returned None)] →
        succeeded f = false)
  ∧ ∃ st', (all_data ← collect [(Demo.day3, Raised Demo.refused);
                                ("2030-01-01", Returned None)] [];
            combine "BTCUSDT" all_data) boot
           = (Returned Pandas.empty, st').
Proof.
  assert (∀ f, f ∈ [(Demo.day3, Raised Demo.refused); ("2030-01-01", Returned None)] →
               succeeded f = false) as H.
  { intros f Hf. apply list_elem_of_In in Hf. simpl in Hf.
    destruct Hf as [<-|[<-|[]]]; reflexivity. }
  split; [exact H|].
  exact (C4_no_success_gives_empty_frame "BTCUSDT" _ boot H).
Defined.

(** The combiner on the empty sequence. *)
Example combine_nothing :
  ((all_data ← collect [] []; combine "BTCUSDT" all_data) boot).1
  = Returned Pandas.empty.
Proof. reflexivity. Qed.

(* --------------------------------------------------------------------- *)
(* One fetch, case by case                                                *)
(* --------------------------------------------------------------------- *)

Ltac fetch_unfold :=
  unfold fetch_result, worker_log, download_and_process, decode, sent, requests_get,
    ZipFile, first_name, zip_open, os_makedirs, to_csv in *;
  py_unfold; simpl in *.

Section Fetch.

Context (W : World) (ticker frequency : string) (output_dir : string).

Local Abbreviation url := (download_url ticker frequency).

Lemma fetch_transport_error save_to_disk date e st :
  http_get W (url date) = Raised e →
  download_and_process W ticker frequency save_to_disk output_dir date st
  = (Raised e, sent (url date) st).
Proof. intros H. fetch_unfold. by rewrite H. Qed.

Lemma fetch_status save_to_disk date resp st :
  http_get W (url date) = Returned resp →
  status_code resp ≠ 200 →
  download_and_process W ticker frequency save_to_disk output_dir date st
  = (Returned None,
     mkRuntime (files st)
       (log st ++ [mkLog ERROR ("Failed to download data for date " +:+ date
                                +:+ ". Status code: " +:+ pretty (status_code resp))])
       (requested st ++ [url date])).
Proof. intros H Hs. fetch_unfold. rewrite H. simpl. by rewrite bool_decide_false. Qed.

Lemma fetch_decode_error save_to_disk date resp e st :
  http_get W (url date) = Returned resp →
  status_code resp = 200 →
  decode W (content resp) = Raised e →
  download_and_process W ticker frequency save_to_disk output_dir date st
  = (Raised e, sent (url date) st).
Proof.
  intros H Hs Hd. fetch_unfold. rewrite H. simpl.
  rewrite bool_decide_true by done.
  destruct (unzip W (content resp)) as [[|[name data] members]|e']; simpl in *;
    try by simplify_eq.
  destruct (last _) as [m|]; simpl in *; [|by simplify_eq].
  destruct (read_csv W m.2) as [df|e'']; simpl in *; by simplify_eq.
Qed.

Lemma fetch_decoded date resp df st :
  http_get W (url date) = Returned resp →
  status_code resp = 200 →
  decode W (content resp) = Returned df →
  download_and_process W ticker frequency false output_dir date st
  = (Returned (Some df), sent (url date) st).
Proof.
  intros H Hs Hd. fetch_unfold. rewrite H. simpl.
  rewrite bool_decide_true by done.
  destruct (unzip W (content resp)) as [[|[name data] members]|e']; simpl in *;
    try by simplify_eq.
  destruct (last _) as [m|]; simpl in *; [|by simplify_eq].
  destruct (read_csv W m.2) as [df'|e'']; simpl in *; by simplify_eq.
Qed.

Lemma fetch_saved date resp df st :
  http_get W (url date) = Returned resp →
  status_code resp = 200 →
  decode W (content resp) = Returned df →
  download_and_process W ticker frequency true output_dir date st
  = if writable W (output_path ticker frequency output_dir)
       && writable W (csv_path ticker frequency output_dir date)
    then (Returned (Some df),
          mkRuntime (<[csv_path ticker frequency output_dir date := df]> (files st))
            (log st) (requested st ++ [url date]))
    else (Raised (mkExc "PermissionError"
                    (if writable W (output_path ticker frequency output_dir)
                     then csv_path ticker frequency output_dir date
                     else output_path ticker frequency output_dir)),
          sent (url date) st).
Proof.
  intros H Hs Hd. fetch_unfold. rewrite H. simpl.
  rewrite bool_decide_true by done.
  destruct (unzip W (content resp)) as [[|[name data] members]|e']; simpl in *;
    try by simplify_eq.
  destruct (last _) as [m|]; simpl in *; [|by simplify_eq].
  destruct (read_csv W m.2) as [df'|e'']; simpl in *; [|by simplify_eq].
  simplify_eq.
  destruct (writable W (output_path _ _ _)); simpl; [|done].
  by destruct (writable W (csv_path _ _ _ _)).
Qed.

End Fetch.

(** C5, as stated, fails: the value returned for a non-success status
    is None whatever the status, so nothing read off the returned value
    tells 404 from 500. *)
Lemma C5_returned_value_has_no_status :
  let r404 := (download_and_process (Demo.status_world 404) "BTCUSDT" "1d" false
                 "kucoin_data" Demo.day1 boot).1 in
  let r500 := (download_and_process (Demo.status_world 500) "BTCUSDT" "1d" false
                 "kucoin_data" Demo.day1 boot).1 in
  r404 = Returned None
  ∧ r500 = Returned None
  ∧ ¬ ∃ status_of : PyResult (option DataFrame) → Z,
        status_of r404 = 404 ∧ status_of r500 = 500.
Proof.
  intros r404 r500.
  assert (r404 = Returned None) as H4 by reflexivity.
  assert (r500 = Returned None) as H5 by reflexivity.
  split; [done|]. split; [done|].
  intros (status_of & E4 & E5). rewrite H4 in E4. rewrite H5 in E5. lia.
Qed.

(** C5, amended. When the response has a status other than 200, the
    fetch returns None, which carries no status, and does not raise; the
    status reaches the log: the fetch emits one ERROR record naming the
    date and the status code, and changes nothing else but the list of
    requests sent. *)
Theorem C5_non_success_status_returns_none
    (W : World) (ticker frequency : string) (save_to_disk : bool)
    (output_dir : string) (date : string) (resp : Response) (st : Runtime) :
  http_get W (download_url ticker frequency date) = Returned resp →
  status_code resp ≠ 200 →
  download_and_process W ticker frequency save_to_disk output_dir date st
  = (Returned None,
     mkRuntime (files st)
       (log st ++ [mkLog ERROR ("Failed to download data for date " +:+ date
                                +:+ ". Status code: " +:+ pretty (status_code resp))])
       (requested st ++ [download_url ticker frequency date])).
Proof. apply fetch_status. Qed.

Lemma C5_non_success_status_returns_none_witness :
  download_and_process (Demo.status_world 404) "BTCUSDT" "1d" true "kucoin_data"
    Demo.day1 boot
  = (Returned None,
     mkRuntime ∅
       [mkLog ERROR "Failed to download data for date 2024-07-01. Status code: 404"]
       ["https://historical-data.kucoin.com/data/spot/daily/klines/BTCUSDT/1d/BTCUSDT-1d-2024-07-01.zip"]).
Proof.
  exact (C5_non_success_status_returns_none (Demo.status_world 404) "BTCUSDT" "1d"
           true "kucoin_data" Demo.day1 (mkResponse 404 []) boot
           eq_refl ltac:(simpl; lia)).
Defined.

Lemma get_combined_data_no_dates W S ticker frequency save_to_disk output_dir
    dates available st :
  listing W ticker frequency = Returned available →
  effective dates available = [] →
  ∃ r0 r1,
    get_combined_data W S ticker frequency save_to_disk output_dir dates st
    = (Returned Pandas.empty, mkRuntime (files st) (log st ++ [r0; r1]) (requested st))
    ∧ levelname r0 = INFO ∧ levelname r1 = WARNING.
Proof.
  intros HL He. unfold get_combined_data. unfold mbind at 1, Py_bind, bind.
  destruct (resolve_dates_eq W ticker frequency dates available st HL) as (r0 & -> & Hr0).
  rewrite He. py_unfold. simpl. rewrite <- app_assoc. simpl.
  eexists r0, (mkLog WARNING _). split; [reflexivity|done].
Qed.

(** C6. With a date list from the caller, the dates requested are
    those of the caller's list that the listing shows; when there is
    none, the call returns [pd.DataFrame()] without raising, having sent
    no request, written no file and logged no error. *)
Theorem C6_request_list_is_intersection
    (W : World) (S : Scheduler) (ticker frequency : string)
    (save_to_disk : bool) (output_dir : string)
    (dates available : list string) (st : Runtime) :
  listing W ticker frequency = Returned available →
  ∃ requests st1,
    resolve_dates W ticker frequency (Some dates) st = (Returned requests, st1)
    ∧ (∀ d, d ∈ requests ↔ d ∈ dates ∧ d ∈ available)
    ∧ (requests = [] →
       ∃ st', get_combined_data W S ticker frequency save_to_disk output_dir
                (Some dates) st
              = (Returned Pandas.empty, st')
              ∧ requested st' = requested st
              ∧ files st' = files st
              ∧ errors st' = errors st).
Proof.
  intros HL.
  destruct (resolve_dates_eq W ticker frequency (Some dates) available st HL)
    as (r0 & E & _).
  eexists _, _. split; [exact E|]. split.
  - intros d. simpl. rewrite list_elem_of_filter. tauto.
  - intros Hnone.
    destruct (get_combined_data_no_dates W S ticker frequency save_to_disk output_dir
                (Some dates) available st HL Hnone) as (r0' & r1 & E' & H0 & H1).
    eexists. split; [exact E'|]. simpl. repeat split.
    unfold errors. simpl. change [r0'; r1] with ([r0'] ++ [r1]).
    rewrite app_assoc, !count_errors_other by (rewrite ?H0, ?H1; done). done.
Qed.

Lemma C6_request_list_is_intersection_witness :
  ∃ requests st1,
    resolve_dates Demo.world "BTCUSDT" "1d" (Some ["2030-01-01"; "2030-01-02"]) boot
    = (Returned requests, st1)
    ∧ (∀ d, d ∈ requests ↔ d ∈ ["2030-01-01"; "2030-01-02"]
                           ∧ d ∈ [Demo.day1; Demo.day2; Demo.day3])
    ∧ (requests = [] →
       ∃ st', get_combined_data Demo.world fifo "BTCUSDT" "1d" true "kucoin_data"
                (Some ["2030-01-01"; "2030-01-02"]) boot
              = (Returned Pandas.empty, st')
              ∧ requested st' = requested boot
              ∧ files st' = files boot
              ∧ errors st' = errors boot).
Proof.
  exact (C6_request_list_is_intersection Demo.world fifo "BTCUSDT" "1d" true
           "kucoin_data" ["2030-01-01"; "2030-01-02"]
           [Demo.day1; Demo.day2; Demo.day3] boot eq_refl).
Defined.

(** Requesting only dates that are not listed: nothing is fetched. *)
Example unlisted_dates_fetch_nothing :
  get_combined_data Demo.world fifo "BTCUSDT" "1d" true "kucoin_data"
    (Some ["2030-01-01"; "2030-01-02"]) boot
  = (Returned Pandas.empty,
     mkRuntime ∅
       [mkLog INFO "Ticker BTCUSDT has 3 available dates for frequency 1d.";
        mkLog WARNING "No dates available for ticker BTCUSDT and frequency 1d."]
       []).
Proof. vm_compute. reflexivity. Qed.

Section Reports.

Context (W : World) (S : Scheduler) (ticker frequency : string)
        (save_to_disk : bool) (output_dir : string).

Local Abbreviation url := (download_url ticker frequency).
Local Abbreviation result := (fetch_result W ticker frequency save_to_disk output_dir).
Local Abbreviation run := (get_combined_data W S ticker frequency save_to_disk output_dir).

(** A transport or decode error ends the fetch with that exception. *)
Lemma fetch_result_raised date e :
  (http_get W (url date) = Raised e
   ∨ ∃ resp, http_get W (url date) = Returned resp
             ∧ status_code resp = 200 ∧ decode W (content resp) = Raised e) →
  result date = Raised e.
Proof.
  unfold fetch_result. intros [H|(resp & H & Hs & Hd)].
  - by rewrite (fetch_transport_error W ticker frequency output_dir _ _ _ _ H).
  - by rewrite (fetch_decode_error W ticker frequency output_dir _ _ _ _ _ H Hs Hd).
Qed.

Lemma failure_logged dates available st date r :
  listing W ticker frequency = Returned available →
  date ∈ effective dates available →
  r ∈ failure_records W ticker frequency save_to_disk output_dir date →
  r ∈ log (run dates st).2.
Proof.
  intros HL Hd Hr.
  destruct (get_combined_data_eq W S ticker frequency save_to_disk output_dir
              dates available st HL) as (st' & r0 & r1 & -> & _ & _ & L & _).
  simpl. rewrite L. apply elem_of_app. right. do 2 right.
  apply list_elem_of_bind. eauto.
Qed.

Lemma exception_logged dates available st date e :
  listing W ticker frequency = Returned available →
  date ∈ effective dates available →
  result date = Raised e →
  mkLog ERROR ("Exception occurred while processing date " +:+ date
               +:+ ": " +:+ exc_str e) ∈ log (run dates st).2.
Proof.
  intros HL Hd He. apply (failure_logged dates available st date _ HL Hd).
  unfold failure_records. apply elem_of_app. right.
  unfold collector_log. simpl. rewrite He. by left.
Qed.

Lemma status_logged dates available st date resp :
  listing W ticker frequency = Returned available →
  date ∈ effective dates available →
  http_get W (url date) = Returned resp →
  status_code resp ≠ 200 →
  mkLog ERROR ("Failed to download data for date " +:+ date
               +:+ ". Status code: " +:+ pretty (status_code resp))
  ∈ log (run dates st).2.
Proof.
  intros HL Hd H Hs. apply (failure_logged dates available st date _ HL Hd).
  unfold failure_records, worker_log. apply elem_of_app. left.
  rewrite (fetch_status W ticker frequency output_dir _ _ _ _ H Hs). simpl. by left.
Qed.

End Reports.

(** C7. When the listing cannot be obtained, the exception of
    [get_available_dates] comes out of the call as it is. When the
    listing is obtained, the call returns a frame, whatever the requests
    and the decoding of the archives do: for a date whose request raises
    or whose archive fails to decode, the exception is turned into an
    ERROR record naming the date, and for a date answered with a status
    other than 200 into an ERROR record naming the date and the status. *)
Theorem C7_error_policy
    (W : World) (S : Scheduler) (ticker frequency : string)
    (save_to_disk : bool) (output_dir : string)
    (dates : option (list string)) (st : Runtime) :
  (∀ e, listing W ticker frequency = Raised e →
        get_combined_data W S ticker frequency save_to_disk output_dir dates st
        = (Raised e, st))
  ∧ (∀ available, listing W ticker frequency = Returned available →
       ∃ df st',
         get_combined_data W S ticker frequency save_to_disk output_dir dates st
         = (Returned df, st')
         ∧ (∀ d e, d ∈ effective dates available →
              (http_get W (download_url ticker frequency d) = Raised e
               ∨ ∃ resp, http_get W (download_url ticker frequency d) = Returned resp
                         ∧ status_code resp = 200
                         ∧ decode W (content resp) = Raised e) →
              mkLog ERROR ("Exception occurred while processing date " +:+ d
                           +:+ ": " +:+ exc_str e) ∈ log st')
         ∧ (∀ d resp, d ∈ effective dates available →
              http_get W (download_url ticker frequency d) = Returned resp →
              status_code resp ≠ 200 →
              mkLog ERROR ("Failed to download data for date " +:+ d
                           +:+ ". Status code: " +:+ pretty (status_code resp))
              ∈ log st')).
Proof.
  split.
  - intros e HL. unfold get_combined_data. unfold mbind at 1, Py_bind, bind.
    by rewrite (resolve_dates_raise W ticker frequency dates e st HL).
  - intros available HL.
    pose proof (exception_logged W S ticker frequency save_to_disk output_dir
                  dates available st) as Hexc.
    pose proof (status_logged W S ticker frequency save_to_disk output_dir
                  dates available st) as Hstat.
    destruct (get_combined_data_eq W S ticker frequency save_to_disk output_dir
                dates available st HL) as (st' & r0 & r1 & E & _).
    rewrite E in *. simpl in *.
    eexists _, st'. split; [reflexivity|]. split.
    + intros d e Hd Herr. apply Hexc; [done|done|].
      by apply fetch_result_raised.
    + intros d resp Hd H Hs. by apply (Hstat d resp).
Qed.

Lemma C7_error_policy_witness :
  get_combined_data Demo.unlisted_world fifo "BTCUSDT" "1d" false "kucoin_data" None boot
  = (Raised (mkExc "AttributeError" "NoneType object has no attribute find_all"), boot)
  ∧ ∃ df st',
      get_combined_data Demo.world fifo "BTCUSDT" "1d" false "kucoin_data" None boot
      = (Returned df, st')
      ∧ mkLog ERROR "Exception occurred while processing date 2024-07-03: connection refused"
        ∈ log st'.
Proof.
  split.
  - exact (proj1 (C7_error_policy Demo.unlisted_world fifo "BTCUSDT" "1d" false
                    "kucoin_data" None boot) _ eq_refl).
  - destruct (proj2 (C7_error_policy Demo.world fifo "BTCUSDT" "1d" false
                       "kucoin_data" None boot) _ eq_refl)
      as (df & st' & E & Hexc & _).
    exists df, st'. split; [exact E|].
    apply (Hexc Demo.day3 Demo.refused).
    + simpl. by do 2 right; left.
    + left. vm_compute. reflexivity.
Defined.

(** A fetch returns None only on the path of line 185: the request was
    answered, with a status other than 200. *)
Lemma fetch_result_none W ticker frequency save_to_disk output_dir date :
  fetch_result W ticker frequency save_to_disk output_dir date = Returned None →
  ∃ resp, http_get W (download_url ticker frequency date) = Returned resp
          ∧ status_code resp ≠ 200.
Proof.
  fetch_unfold.
  destruct (http_get W (download_url ticker frequency date)) as [resp|e]; simpl;
    [|done].
  case_bool_decide; simpl; [|by eauto].
  destruct (unzip W (content resp)) as [[|[name data] members]|e]; simpl; try done.
  destruct (last _) as [m|]; simpl; [|done].
  destruct (read_csv W m.2) as [df|e]; simpl; [|done].
  destruct save_to_disk; simpl; [|done].
  destruct (writable W _); simpl; [|done].
  by destruct (writable W _).
Qed.

(** C8, as stated, fails: the value the call returns is the frame
    alone. Requesting a day that succeeds and a day that fails returns
    the same value as requesting the first day only, so no count of
    failed dates can be read off what is returned. *)
Lemma C8_returned_value_hides_failures :
  let run := λ dates,
    (get_combined_data Demo.world fifo "BTCUSDT" "1d" false "kucoin_data"
       (Some dates) boot).1 in
  let failures := λ dates,
    length (filter failed
              (outcomes Demo.world "BTCUSDT" "1d" false "kucoin_data" dates)) in
  run [Demo.day1; Demo.day3] = run [Demo.day1]
  ∧ failures [Demo.day1; Demo.day3] = 1%nat
  ∧ failures [Demo.day1] = 0%nat
  ∧ ¬ ∃ failed_count : PyResult DataFrame → nat,
        ∀ dates, failed_count (run dates) = failures dates.
Proof.
  intros run failures.
  assert (run [Demo.day1; Demo.day3] = run [Demo.day1]) as Hsame
    by (vm_compute; reflexivity).
  assert (failures [Demo.day1; Demo.day3] = 1%nat) as H1 by (vm_compute; reflexivity).
  assert (failures [Demo.day1] = 0%nat) as H0 by (vm_compute; reflexivity).
  repeat split; try done.
  intros (failed_count & Hc).
  pose proof (Hc [Demo.day1; Demo.day3]) as Ha. pose proof (Hc [Demo.day1]) as Hb.
  rewrite Hsame, Hb, H0 in Ha. rewrite H1 in Ha. discriminate.
Qed.

(** C8, amended. When the listing is obtained, a run in which some
    dates fail still returns a frame: the concatenation of the tables of
    the dates that succeeded, in the order their futures were handed
    back, with as many rows as those tables have together. The failed
    dates are not part of what is returned; they are reported through
    the logger only: the run adds one ERROR record per failed date, and
    the record of a failed date names that date. *)
Theorem C8_best_effort_frame_and_error_log
    (W : World) (S : Scheduler) (ticker frequency : string)
    (save_to_disk : bool) (output_dir : string)
    (dates : option (list string)) (available : list string) (st : Runtime) :
  listing W ticker frequency = Returned available →
  ∃ df all_data st',
    get_combined_data W S ticker frequency save_to_disk output_dir dates st
    = (Returned df, st')
    ∧ df = concat_frames all_data
    ∧ all_data ≡ₚ successes (outcomes W ticker frequency save_to_disk output_dir
                               (effective dates available))
    ∧ len df = sum_list (len <$> successes
                           (outcomes W ticker frequency save_to_disk output_dir
                              (effective dates available)))
    ∧ errors st'
      = (errors st
         + length (filter failed (outcomes W ticker frequency save_to_disk output_dir
                                    (effective dates available))))%nat
    ∧ (∀ d, d ∈ effective dates available →
            failed (d, fetch_result W ticker frequency save_to_disk output_dir d) = true →
            ∃ r rest, r ∈ log st' ∧ levelname r = ERROR
                      ∧ (message r = "Failed to download data for date " +:+ d +:+ rest
                         ∨ message r
                           = "Exception occurred while processing date " +:+ d +:+ rest)).
Proof.
  intros HL.
  pose proof (get_combined_data_errors W S ticker frequency save_to_disk output_dir
                dates available st HL) as Herr.
  pose proof (exception_logged W S ticker frequency save_to_disk output_dir
                dates available st) as Hexc.
  pose proof (status_logged W S ticker frequency save_to_disk output_dir
                dates available st) as Hstat.
  destruct (get_combined_data_eq W S ticker frequency save_to_disk output_dir
              dates available st HL) as (st' & r0 & r1 & E & _).
  rewrite E in *. simpl in *.
  pose proof (successes_perm _ _
                (collected_perm W S ticker frequency save_to_disk output_dir
                   (effective dates available))) as Hperm.
  eexists _, _, st'. split; [reflexivity|]. split; [reflexivity|].
  split; [exact Hperm|]. split; [by rewrite concat_frames_len, Hperm|].
  split; [exact Herr|].
  intros d Hd Hfail. unfold failed, succeeded, success_of in Hfail. simpl in Hfail.
  destruct (fetch_result W ticker frequency save_to_disk output_dir d)
    as [[t|]|e] eqn:Er; [done| |].
  - destruct (fetch_result_none _ _ _ _ _ _ Er) as (resp & H & Hs).
    eexists _, _. split; [exact (Hstat d resp HL Hd H Hs)|]. split; [done|by left].
  - eexists _, _. split; [exact (Hexc d e HL Hd Er)|]. split; [done|by right].
Qed.

Lemma C8_best_effort_frame_and_error_log_witness :
  ∃ df st',
    get_combined_data Demo.world lifo "BTCUSDT" "1d" false "kucoin_data"
      (Some [Demo.day1; Demo.day3; Demo.day2]) boot
    = (Returned df, st')
    ∧ len df = 25%nat
    ∧ errors st' = 1%nat.
Proof.
  destruct (C8_best_effort_frame_and_error_log Demo.world lifo "BTCUSDT" "1d" false
              "kucoin_data" (Some [Demo.day1; Demo.day3; Demo.day2])
              [Demo.day1; Demo.day2; Demo.day3] boot eq_refl)
    as (df & all_data & st' & E & _ & _ & Hlen & Herr & _).
  exists df, st'. split; [exact E|]. split.
  - rewrite Hlen. vm_compute. reflexivity.
  - rewrite Herr. vm_compute. reflexivity.
Defined.

(** Two days of ten and fifteen rows and one day whose request fails:
    twenty-five rows come back, and the failure is in the log. *)
Example two_tables_one_failure :
  let '(r, st') := get_combined_data Demo.world fifo "BTCUSDT" "1d" false "kucoin_data"
                     (Some [Demo.day1; Demo.day2; Demo.day3]) boot in
  r = Returned (mkDataFrame ["time"; "close"]
                  (rows Demo.ten_rows ++ rows Demo.fifteen_rows))
  ∧ filter (λ r, levelname r = ERROR) (log st')
    = [mkLog ERROR "Exception occurred while processing date 2024-07-03: connection refused"].
Proof. vm_compute. split; reflexivity. Qed.

(* --------------------------------------------------------------------- *)
(* Strings and paths                                                      *)
(* --------------------------------------------------------------------- *)

Lemma append_nil_l t : "" +:+ t = t.
Proof. reflexivity. Qed.

Lemma append_cons c s t : String c s +:+ t = String c (s +:+ t).
Proof. reflexivity. Qed.

Lemma append_assoc s t u : (s +:+ t) +:+ u = s +:+ (t +:+ u).
Proof.
  induction s as [|c s IH]; [done|]. rewrite !append_cons. by rewrite IH.
Qed.

Lemma length_append s t :
  String.length (s +:+ t) = (String.length s + String.length t)%nat.
Proof.
  induction s as [|c s IH]; [done|]. rewrite append_cons. simpl. by rewrite IH.
Qed.

Lemma append_inj_r s1 s2 t : s1 +:+ t = s2 +:+ t → s1 = s2.
Proof.
  revert s2. induction s1 as [|c1 s1 IH]; intros [|c2 s2] H; [done| | |].
  - apply (f_equal String.length) in H.
    rewrite append_nil_l, append_cons in H. simpl in H.
    rewrite length_append in H. lia.
  - apply (f_equal String.length) in H.
    rewrite append_nil_l, append_cons in H. simpl in H.
    rewrite length_append in H. lia.
  - rewrite !append_cons in H. injection H as -> H. f_equal. by apply IH.
Qed.

(** The download URL tells the date. *)
Lemma download_url_inj ticker frequency d1 d2 :
  download_url ticker frequency d1 = download_url ticker frequency d2 → d1 = d2.
Proof.
  unfold download_url, zip_name. intros H.
  repeat apply String.app_inj in H. by apply append_inj_r in H.
Qed.

Module PathFacts.
Import PosixPath.

Lemma endswith_sep_cons c s : s ≠ "" → endswith_sep (String c s) = endswith_sep s.
Proof. by destruct s. Qed.

Lemma endswith_sep_app a b : b ≠ "" → endswith_sep (a +:+ b) = endswith_sep b.
Proof.
  intros Hb. induction a as [|c a IH]; [done|].
  rewrite append_cons, endswith_sep_cons; [done|].
  destruct a; [by rewrite append_nil_l|by rewrite append_cons].
Qed.

Lemma is_empty_app a b : is_empty (a +:+ b) = is_empty a && is_empty b.
Proof. by destruct a. Qed.

Lemma startswith_sep_app a b : a ≠ "" → startswith_sep (a +:+ b) = startswith_sep a.
Proof. by destruct a. Qed.

Lemma is_empty_false s : is_empty s = false ↔ s ≠ "".
Proof. by destruct s. Qed.

(** Joining onto a non-empty path without a trailing separator a
    component without a leading one puts one separator between them. *)
Lemma join_step_plain path b :
  is_empty path = false → endswith_sep path = false → startswith_sep b = false →
  join_step path b = path +:+ "/" +:+ b.
Proof. intros H1 H2 H3. unfold join_step. by rewrite H1, H2, H3. Qed.

End PathFacts.

Lemma csv_path_join ticker frequency output_dir date :
  csv_path ticker frequency output_dir date
  = PosixPath.join output_dir [ticker; frequency; csv_name ticker frequency date].
Proof. reflexivity. Qed.

Lemma csv_path_template ticker frequency output_dir date :
  PosixPath.plain_dir output_dir = true →
  PosixPath.plain ticker = true →
  PosixPath.plain frequency = true →
  csv_path ticker frequency output_dir date
  = template_path ticker frequency output_dir date.
Proof.
  unfold PosixPath.plain_dir, PosixPath.plain.
  intros [Ho1 Ho2]%andb_true_iff [[Ht1 Ht2]%andb_true_iff Ht3]%andb_true_iff
         [[Hf1 Hf2]%andb_true_iff Hf3]%andb_true_iff.
  apply negb_true_iff in Ho1, Ho2, Ht1, Ht2, Ht3, Hf1, Hf2, Hf3.
  pose proof (proj1 (PathFacts.is_empty_false _) Ht1) as Ht.
  pose proof (proj1 (PathFacts.is_empty_false _) Hf1) as Hf.
  unfold csv_path, output_path, PosixPath.join, template_path. cbn [foldl].
  rewrite (PathFacts.join_step_plain output_dir ticker) by done.
  rewrite (PathFacts.join_step_plain _ frequency); [| | |done].
  - rewrite PathFacts.join_step_plain.
    + unfold csv_name. by rewrite !append_assoc.
    + by rewrite !PathFacts.is_empty_app, Ho1.
    + rewrite PathFacts.endswith_sep_app; [|by destruct frequency].
      by rewrite PathFacts.endswith_sep_app.
    + unfold csv_name. by rewrite PathFacts.startswith_sep_app.
  - by rewrite PathFacts.is_empty_app, Ho1.
  - rewrite PathFacts.endswith_sep_app; [|by destruct ticker].
    by rewrite PathFacts.endswith_sep_app.
Qed.

(** C9, as stated, fails on both counts. Where the process may not
    write, the fetch with the save flag raises while the fetch without it
    returns the table, so the flag does change what comes back. And the
    file goes where [os.path.join] says, which for an empty [output_dir]
    is a relative path, not the path of the template. *)
Lemma C9_save_flag_changes_outcome :
  (download_and_process Demo.readonly_world "BTCUSDT" "1d" false "kucoin_data"
     Demo.day1 boot).1
  = Returned (Some Demo.ten_rows)
  ∧ (download_and_process Demo.readonly_world "BTCUSDT" "1d" true "kucoin_data"
       Demo.day1 boot).1
    = Raised (mkExc "PermissionError" "kucoin_data/BTCUSDT/1d")
  ∧ template_path "BTCUSDT" "1d" "" Demo.day1 = "/BTCUSDT/1d/BTCUSDT-1d-2024-07-01.csv"
  ∧ files (download_and_process Demo.world "BTCUSDT" "1d" true "" Demo.day1 boot).2
    = {[ "BTCUSDT/1d/BTCUSDT-1d-2024-07-01.csv" := Demo.ten_rows ]}
  ∧ files (download_and_process Demo.world "BTCUSDT" "1d" true "" Demo.day1 boot).2
      !! template_path "BTCUSDT" "1d" "" Demo.day1
    = None.
Proof. repeat split; vm_compute; reflexivity. Qed.

(** C9, amended. For a fetch whose request is answered with status 200
    and whose archive decodes to a table: without the save flag the fetch
    returns the table and writes nothing. With the flag, if
    [os.makedirs] and [to_csv] succeed, the fetch returns the same table
    and the only other change is that the table is stored at
    [os.path.join(output_dir, ticker, frequency, name)] with [name] the
    file name [{ticker}-{frequency}-{date}.csv]; if one of them raises,
    the fetch raises that exception instead of returning the table, and
    writes nothing. The path of the file is the path of the template
    whenever [output_dir], [ticker] and [frequency] are non-empty,
    [output_dir] has no trailing separator and the other two have no
    separator at either end. *)
Theorem C9_save_flag
    (W : World) (ticker frequency output_dir date : string)
    (resp : Response) (df : DataFrame) (st : Runtime) :
  http_get W (download_url ticker frequency date) = Returned resp →
  status_code resp = 200 →
  decode W (content resp) = Returned df →
  let path := csv_path ticker frequency output_dir date in
  let st1 := sent (download_url ticker frequency date) st in
  download_and_process W ticker frequency false output_dir date st
  = (Returned (Some df), st1)
  ∧ (writable W (output_path ticker frequency output_dir) = true →
     writable W path = true →
     download_and_process W ticker frequency true output_dir date st
     = (Returned (Some df),
        mkRuntime (<[path := df]> (files st1)) (log st1) (requested st1)))
  ∧ (writable W (output_path ticker frequency output_dir) = false
     ∨ writable W path = false →
     ∃ e, download_and_process W ticker frequency true output_dir date st
          = (Raised e, st1))
  ∧ path = PosixPath.join output_dir [ticker; frequency; csv_name ticker frequency date]
  ∧ (PosixPath.plain_dir output_dir = true →
     PosixPath.plain ticker = true →
     PosixPath.plain frequency = true →
     path = template_path ticker frequency output_dir date).
Proof.
  intros H Hs Hd path st1.
  pose proof (fetch_saved W ticker frequency output_dir date resp df st H Hs Hd)
    as Hsave.
  split; [by apply (fetch_decoded W ticker frequency output_dir date resp)|].
  split; [|split; [|split]].
  - intros Hw1 Hw2. rewrite Hsave. subst path. by rewrite Hw1, Hw2.
  - intros Hw. rewrite Hsave. subst path.
    destruct (writable W (output_path _ _ _)); simpl; [|by eauto].
    destruct Hw as [Hw|Hw]; [done|]. rewrite Hw. by eauto.
  - apply csv_path_join.
  - apply csv_path_template.
Qed.

Lemma C9_save_flag_witness :
  download_and_process Demo.world "BTCUSDT" "1d" false "kucoin_data" Demo.day1 boot
  = (Returned (Some Demo.ten_rows),
     sent (download_url "BTCUSDT" "1d" Demo.day1) boot)
  ∧ download_and_process Demo.world "BTCUSDT" "1d" true "kucoin_data" Demo.day1 boot
    = (Returned (Some Demo.ten_rows),
       mkRuntime {[ csv_path "BTCUSDT" "1d" "kucoin_data" Demo.day1 := Demo.ten_rows ]}
         [] [download_url "BTCUSDT" "1d" Demo.day1])
  ∧ csv_path "BTCUSDT" "1d" "kucoin_data" Demo.day1
    = "kucoin_data/BTCUSDT/1d/BTCUSDT-1d-2024-07-01.csv".
Proof.
  destruct (C9_save_flag Demo.world "BTCUSDT" "1d" "kucoin_data" Demo.day1
              (mkResponse 200 [Byte.x01]) Demo.ten_rows boot
              ltac:(vm_compute; reflexivity) eq_refl ltac:(vm_compute; reflexivity))
    as (Hplain & Hsaved & _ & _ & Hpath).
  split; [exact Hplain|]. split.
  - exact (Hsaved eq_refl eq_refl).
  - rewrite (Hpath eq_refl eq_refl eq_refl). vm_compute. reflexivity.
Defined.

(* --------------------------------------------------------------------- *)
(* Repeated dates                                                         *)
(* --------------------------------------------------------------------- *)

Lemma occurrences_filter_listed (date : string) (available dates : list string) :
  date ∈ available →
  occurrences date (filter (λ d, d ∈ available) dates) = occurrences date dates.
Proof.
  intros Hin. induction dates as [|d dates IH]; [done|].
  rewrite filter_cons. case_decide as Hd.
  - by rewrite !occurrences_cons, IH.
  - rewrite occurrences_cons, IH. case_decide; [by subst|done].
Qed.

Lemma occurrences_fmap_inj `{EqDecision A} `{EqDecision B} (f : A → B) x (l : list A) :
  (∀ y, f y = f x → y = x) →
  occurrences (f x) (f <$> l) = occurrences x l.
Proof.
  intros Hinj. induction l as [|y l IH]; [done|].
  cbn [fmap list_fmap]. rewrite !occurrences_cons.
  change (list_fmap _ _ f l) with (f <$> l). rewrite IH.
  repeat case_decide; try done; subst; [by exfalso; eauto|done].
Qed.

Lemma occurrences_successes W ticker frequency save_to_disk output_dir
    (date : string) (table : DataFrame) (dates : list string) :
  fetch_result W ticker frequency save_to_disk output_dir date = Returned (Some table) →
  (occurrences date dates
   ≤ occurrences table
       (successes (outcomes W ticker frequency save_to_disk output_dir dates)))%nat.
Proof.
  intros Hok. induction dates as [|d dates IH]; [done|].
  unfold outcomes, successes in *. cbn [fmap list_fmap omap list_omap].
  rewrite occurrences_cons. case_decide as Hd.
  - subst d. unfold success_of at 1. simpl. rewrite Hok.
    rewrite occurrences_cons, decide_True by done. lia.
  - destruct (success_of _); [rewrite occurrences_cons|]; lia.
Qed.

(** C10. With a date list from the caller, the dates requested keep the
    caller's order and repetitions: a listed date that the caller names k
    times is requested k times, its URL is fetched k times, and when its
    fetch succeeds every row of its table is in the returned frame at
    least k times as often as in the table. *)
Theorem C10_repeated_dates_are_fetched_again
    (W : World) (S : Scheduler) (ticker frequency : string)
    (save_to_disk : bool) (output_dir : string)
    (dates available : list string) (date : string) (st : Runtime) :
  listing W ticker frequency = Returned available →
  date ∈ available →
  ∃ requests st0 df st',
    resolve_dates W ticker frequency (Some dates) st = (Returned requests, st0)
    ∧ requests `sublist_of` dates
    ∧ occurrences date requests = occurrences date dates
    ∧ get_combined_data W S ticker frequency save_to_disk output_dir (Some dates) st
      = (Returned df, st')
    ∧ occurrences (download_url ticker frequency date) (requested st')
      = (occurrences (download_url ticker frequency date) (requested st)
         + occurrences date dates)%nat
    ∧ (∀ table row,
         fetch_result W ticker frequency save_to_disk output_dir date
         = Returned (Some table) →
         (occurrences date dates * occurrences row (block (columns df) table)
          ≤ occurrences row (rows df))%nat).
Proof.
  intros HL Hin.
  destruct (resolve_dates_eq W ticker frequency (Some dates) available st HL)
    as (r0 & E0 & _).
  destruct (get_combined_data_eq W S ticker frequency save_to_disk output_dir
              (Some dates) available st HL) as (st' & r0' & r1 & E & _ & _ & _ & R).
  pose proof (occurrences_filter_listed date available dates Hin) as Hk.
  eexists _, _, _, st'. split; [exact E0|]. simpl effective in *.
  split; [apply sublist_filter|]. split; [exact Hk|]. split; [exact E|]. split.
  - rewrite (occurrences_perm _ _ _ R), occurrences_app. f_equal.
    rewrite occurrences_fmap_inj; [exact Hk|].
    intros y Hy. by apply download_url_inj in Hy.
  - intros table row Hok. rewrite <- Hk.
    set (eff := filter (λ d, d ∈ available) dates).
    set (tables := successes (collected W S ticker frequency save_to_disk output_dir eff)).
    pose proof (occurrences_bind_ge (block (union_columns tables)) table row tables)
      as Hrows.
    assert (occurrences date eff ≤ occurrences table tables)%nat as Hge.
    { unfold tables.
      rewrite (occurrences_perm table _ _
                 (successes_perm _ _
                    (collected_perm W S ticker frequency save_to_disk output_dir eff))).
      by apply occurrences_successes. }
    unfold concat_frames. simpl. nia.
Qed.

Lemma C10_repeated_dates_are_fetched_again_witness :
  ∃ df st',
    get_combined_data Demo.world lifo "BTCUSDT" "1d" false "kucoin_data"
      (Some [Demo.day2; Demo.day1; Demo.day2; "2030-01-01"]) boot
    = (Returned df, st')
    ∧ occurrences (download_url "BTCUSDT" "1d" Demo.day2) (requested st') = 2%nat
    ∧ (30 ≤ occurrences [Some "1719878400"; Some "62100.5"] (rows df))%nat.
Proof.
  destruct (C10_repeated_dates_are_fetched_again Demo.world lifo "BTCUSDT" "1d" false
              "kucoin_data" [Demo.day2; Demo.day1; Demo.day2; "2030-01-01"]
              [Demo.day1; Demo.day2; Demo.day3] Demo.day2 boot eq_refl
              ltac:(by right; left))
    as (requests & st0 & df & st' & _ & _ & _ & E & Hreq & Hrows).
  specialize (Hrows Demo.fifteen_rows [Some "1719878400"; Some "62100.5"]
                ltac:(vm_compute; reflexivity)).
  exists df, st'. split; [exact E|]. split; [exact Hreq|].
  assert ((get_combined_data Demo.world lifo "BTCUSDT" "1d" false "kucoin_data"
             (Some [Demo.day2; Demo.day1; Demo.day2; "2030-01-01"]) boot).1
          = Returned df) as Hdf by (by rewrite E).
  vm_compute in Hdf. injection Hdf as <-.
  etrans; [|exact Hrows]. vm_compute. reflexivity.
Defined.

(* ===================================================================== *)
(* Further properties of the code                                         *)
(* ===================================================================== *)

(* --------------------------------------------------------------------- *)
(* Names, URLs and paths                                                  *)
(* --------------------------------------------------------------------- *)

Lemma csv_name_inj ticker frequency d1 d2 :
  csv_name ticker frequency d1 = csv_name ticker frequency d2 → d1 = d2.
Proof.
  unfold csv_name. intros H.
  repeat apply String.app_inj in H. by apply append_inj_r in H.
Qed.

Lemma csv_name_startswith ticker frequency d1 d2 :
  PosixPath.startswith_sep (csv_name ticker frequency d1)
  = PosixPath.startswith_sep (csv_name ticker frequency d2).
Proof. unfold csv_name. by destruct ticker. Qed.

Lemma join_step_inj path b1 b2 :
  PosixPath.startswith_sep b1 = PosixPath.startswith_sep b2 →
  PosixPath.join_step path b1 = PosixPath.join_step path b2 → b1 = b2.
Proof.
  unfold PosixPath.join_step. intros <-.
  destruct (PosixPath.startswith_sep b1 || PosixPath.is_empty path); [done|].
  destruct (PosixPath.endswith_sep path); intros H.
  - by apply String.app_inj in H.
  - by do 2 apply String.app_inj in H.
Qed.

Lemma csv_path_inj ticker frequency output_dir d1 d2 :
  csv_path ticker frequency output_dir d1 = csv_path ticker frequency output_dir d2 →
  d1 = d2.
Proof.
  unfold csv_path, PosixPath.join. cbn [foldl]. intros H.
  apply join_step_inj in H; [|apply csv_name_startswith].
  by apply csv_name_inj in H.
Qed.

(** X1. Two different dates never share a download URL or a CSV file:
    for fixed ticker, frequency and output directory, the URL built at
    line 170 and the path built at lines 181-183 each determine the
    date. *)
Theorem dates_have_their_own_url_and_file
    (ticker frequency output_dir d1 d2 : string) :
  d1 ≠ d2 →
  download_url ticker frequency d1 ≠ download_url ticker frequency d2
  ∧ csv_path ticker frequency output_dir d1 ≠ csv_path ticker frequency output_dir d2.
Proof.
  intros Hne. split; intros H; apply Hne.
  - by apply download_url_inj in H.
  - by apply csv_path_inj in H.
Qed.

Lemma dates_have_their_own_url_and_file_witness :
  download_url "BTCUSDT" "1d" Demo.day1 ≠ download_url "BTCUSDT" "1d" Demo.day2
  ∧ csv_path "BTCUSDT" "1d" "/" Demo.day1 ≠ csv_path "BTCUSDT" "1d" "/" Demo.day2.
Proof.
  exact (dates_have_their_own_url_and_file "BTCUSDT" "1d" "/" Demo.day1 Demo.day2
           ltac:(done)).
Defined.



(* --------------------------------------------------------------------- *)
(* Files                                                                  *)
(* --------------------------------------------------------------------- *)

Section Files.

Context (W : World) (S : Scheduler) (ticker frequency : string)
        (save_to_disk : bool) (output_dir : string).

Local Abbreviation fetch := (download_and_process W ticker frequency save_to_disk output_dir).
Local Abbreviation result := (fetch_result W ticker frequency save_to_disk output_dir).
Local Abbreviation saved := (saved_files W ticker frequency save_to_disk output_dir).
Local Abbreviation path := (csv_path ticker frequency output_dir).
Local Abbreviation run := (get_combined_data W S ticker frequency save_to_disk output_dir).

Lemma fetch_files date st : files (fetch date st).2 = saved (files st) date.
Proof.
  unfold saved_files. fetch_unfold.
  destruct (http_get W (download_url ticker frequency date)) as [resp|e]; simpl;
    [|by destruct save_to_disk].
  case_bool_decide; simpl; [|by destruct save_to_disk].
  destruct (unzip W (content resp)) as [[|[name data] members]|e]; simpl;
    try by destruct save_to_disk.
  destruct (last _) as [m|]; simpl; [|by destruct save_to_disk].
  destruct (read_csv W m.2) as [df|e]; simpl; [|by destruct save_to_disk].
  destruct save_to_disk; simpl; [|done].
  destruct (writable W (output_path _ _ _)); simpl; [|done].
  by destruct (writable W (csv_path _ _ _ _)).
Qed.

Lemma run_tasks_files tasks st :
  files (run_tasks W ticker frequency save_to_disk output_dir tasks st).2
  = foldl saved (files st) tasks.
Proof.
  revert st. induction tasks as [|d tasks IH]; intros st; [done|].
  cbn [run_tasks foldl]. rewrite <- fetch_files.
  destruct (fetch d st) as [r st1]. specialize (IH st1).
  destruct (run_tasks _ _ _ _ _ tasks st1) as [fs st2]. simpl in *. by rewrite IH.
Qed.

Lemma saved_lookup_other m tasks p :
  (∀ d table, d ∈ tasks → result d = Returned (Some table) → p ≠ path d) →
  foldl saved m tasks !! p = m !! p.
Proof.
  revert m. induction tasks as [|d tasks IH]; intros m Hp; [done|].
  cbn [foldl]. rewrite IH by (intros d' t' Hd'; apply Hp; by right).
  unfold saved_files.
  destruct (result d) as [[table|]|e] eqn:Er; destruct save_to_disk; try done.
  rewrite lookup_insert_ne; [done|]. intros Heq.
  by apply (Hp d table ltac:(left) Er).
Qed.

Lemma saved_lookup_written m tasks d table :
  save_to_disk = true →
  result d = Returned (Some table) →
  d ∈ tasks ∨ m !! path d = Some table →
  foldl saved m tasks !! path d = Some table.
Proof.
  intros Hs Hr. revert m. induction tasks as [|d' tasks IH]; intros m Hd.
  - destruct Hd as [Hd|Hd]; [by apply elem_of_nil in Hd|done].
  - cbn [foldl]. apply IH. unfold saved_files.
    destruct (decide (d' = d)) as [->|Hne].
    + right. rewrite Hr, Hs. apply lookup_insert_eq.
    + destruct Hd as [Hd|Hd].
      * apply elem_of_cons in Hd as [Hd|Hd]; [congruence|by left].
      * right. destruct (result d') as [[t'|]|e]; rewrite Hs; try done.
        rewrite lookup_insert_ne; [done|]. intros Heq. by apply csv_path_inj in Heq.
Qed.

(** The files after the whole call. *)
Lemma get_combined_data_files dates available st :
  listing W ticker frequency = Returned available →
  files (run dates st).2
  = foldl saved (files st) (run_order S (effective dates available)).
Proof.
  intros HL. unfold get_combined_data. unfold mbind at 1, Py_bind, bind.
  destruct (resolve_dates_eq W ticker frequency dates available st HL) as (r0 & -> & _).
  destruct (effective dates available) as [|d ds] eqn:Eeff.
  - pose proof (run_order_perm S []) as Hr. apply Permutation_nil_r in Hr.
    rewrite Hr. py_unfold. done.
  - unfold mbind, Py_bind, bind, retrieve, submit_all. py_unfold.
    match goal with |- context [run_tasks _ _ _ _ _ ?l ?s] =>
      pose proof (run_tasks_files l s) as Hf;
      destruct (run_tasks W ticker frequency save_to_disk output_dir l s)
        as [fs st1] eqn:E1
    end.
    simpl in Hf.
    destruct (collect_eq (as_completed S fs) [] st1) as (st2 & -> & _ & _ & F2).
    destruct (combine_eq ticker ([] ++ successes (as_completed S fs)) st2)
      as (r1 & -> & _).
    simpl. by rewrite F2, Hf.
Qed.

End Files.

(** X3. Without the save flag the call writes nothing: whatever the
    world, the scheduler and the dates, and whether it returns or
    raises, the files after the call are the files before it. *)
Theorem no_save_flag_no_file_written
    (W : World) (S : Scheduler) (ticker frequency output_dir : string)
    (dates : option (list string)) (st : Runtime) :
  files (get_combined_data W S ticker frequency false output_dir dates st).2 = files st.
Proof.
  destruct (listing W ticker frequency) as [available|e] eqn:HL.
  - rewrite (get_combined_data_files W S ticker frequency false output_dir
               dates available st HL).
    generalize (run_order S (effective dates available)) (files st).
    intros l. induction l as [|d l IH]; intros m; [done|]. cbn [foldl]. apply IH.
  - unfold get_combined_data. unfold mbind at 1, Py_bind, bind.
    by rewrite (resolve_dates_raise W ticker frequency dates e st HL).
Qed.

(** X4. With the save flag, when the listing is obtained, after the
    call every requested date whose fetch returned a table has that
    table stored at its CSV path, however the pool scheduled the
    fetches, and every path that is not the CSV path of such a date
    holds what it held before. *)
Theorem save_flag_stores_each_fetched_table
    (W : World) (S : Scheduler) (ticker frequency output_dir : string)
    (dates : option (list string)) (available : list string) (st : Runtime) :
  listing W ticker frequency = Returned available →
  let after := files (get_combined_data W S ticker frequency true output_dir dates st).2 in
  (∀ d table,
     d ∈ effective dates available →
     fetch_result W ticker frequency true output_dir d = Returned (Some table) →
     after !! csv_path ticker frequency output_dir d = Some table)
  ∧ (∀ p,
       (∀ d table,
          d ∈ effective dates available →
          fetch_result W ticker frequency true output_dir d = Returned (Some table) →
          p ≠ csv_path ticker frequency output_dir d) →
       after !! p = files st !! p).
Proof.
  intros HL after. subst after.
  rewrite (get_combined_data_files W S ticker frequency true output_dir
             dates available st HL).
  split.
  - intros d table Hd Hr. apply saved_lookup_written; [done|done|].
    left. by rewrite run_order_perm.
  - intros p Hp. apply saved_lookup_other.
    intros d table Hd. apply Hp. by rewrite <- (run_order_perm S).
Qed.

Lemma save_flag_stores_each_fetched_table_witness :
  files (get_combined_data Demo.world lifo "BTCUSDT" "1d" true "kucoin_data"
           None boot).2
    !! "kucoin_data/BTCUSDT/1d/BTCUSDT-1d-2024-07-02.csv"
  = Some Demo.fifteen_rows
  ∧ files (get_combined_data Demo.world lifo "BTCUSDT" "1d" true "kucoin_data"
             None boot).2
      !! "kucoin_data/BTCUSDT/1d/BTCUSDT-1d-2024-07-03.csv"
    = None.
Proof.
  destruct (save_flag_stores_each_fetched_table Demo.world lifo "BTCUSDT" "1d"
              "kucoin_data" None [Demo.day1; Demo.day2; Demo.day3] boot eq_refl)
    as (Hw & Ho).
  split.
  - apply (Hw Demo.day2 Demo.fifteen_rows); [by right; left|vm_compute; reflexivity].
  - rewrite Ho; [done|].
    intros d table Hd Hr Hp. apply list_elem_of_In in Hd. simpl in Hd.
    destruct Hd as [<-|[<-|[<-|[]]]]; vm_compute in Hp; discriminate.
Defined.

(* --------------------------------------------------------------------- *)
(* Decoding an archive                                                    *)
(* --------------------------------------------------------------------- *)




(* --------------------------------------------------------------------- *)
(* Columns                                                                *)
(* --------------------------------------------------------------------- *)

Lemma add_labels_elem (c : string) (l acc : list string) :
  c ∈ foldl add_label acc l ↔ c ∈ acc ∨ c ∈ l.
Proof.
  revert acc. induction l as [|x l IH]; intros acc; cbn [foldl].
  - rewrite elem_of_nil. tauto.
  - rewrite IH, elem_of_cons. unfold add_label. case_decide.
    + split; [tauto|]. intros [?|[->|?]]; tauto.
    + rewrite elem_of_app, list_elem_of_singleton. tauto.
Qed.

Lemma union_columns_elem (c : string) (dfs : list DataFrame) :
  c ∈ union_columns dfs ↔ ∃ df, df ∈ dfs ∧ c ∈ columns df.
Proof.
  unfold union_columns. rewrite add_labels_elem, elem_of_nil, list_elem_of_bind.
  split; [intros [[]|(df & ? & ?)]; eauto|intros (df & ? & ?); eauto].
Qed.

Lemma add_labels_known (l acc : list string) :
  (∀ c, c ∈ l → c ∈ acc) → foldl add_label acc l = acc.
Proof.
  induction l as [|x l IH]; intros Hl; [done|]. cbn [foldl].
  unfold add_label at 2. rewrite decide_True by (apply Hl; by left).
  apply IH. intros c Hc. apply Hl. by right.
Qed.

Lemma add_labels_fresh (l acc : list string) :
  NoDup (acc ++ l) → foldl add_label acc l = acc ++ l.
Proof.
  revert acc. induction l as [|x l IH]; intros acc Hnd; cbn [foldl].
  - by rewrite app_nil_r.
  - unfold add_label at 2. rewrite decide_False.
    + rewrite IH; rewrite <- app_assoc; [done|exact Hnd].
    + apply NoDup_app in Hnd as (_ & Hdis & _). intros Hx.
      apply (Hdis x Hx). by left.
Qed.

Lemma union_columns_uniform (cols : list string) (dfs : list DataFrame) :
  NoDup cols → dfs ≠ [] → (∀ df, df ∈ dfs → columns df = cols) →
  union_columns dfs = cols.
Proof.
  intros Hnd Hne Hall. destruct dfs as [|df dfs]; [done|].
  unfold union_columns. cbn [mbind list_bind].
  rewrite foldl_app, (Hall df ltac:(left)), (add_labels_fresh cols []) by done.
  simpl. apply add_labels_known. intros c Hc.
  apply list_elem_of_bind in Hc as (df' & Hc & Hdf').
  rewrite (Hall df') in Hc; [done|by right].
Qed.

Lemma cell_at_own (cols : list string) (row : list cell) :
  NoDup cols → length row = length cols → cell_at cols row <$> cols = row.
Proof.
  intros Hnd Hlen. apply list_eq. intros i. rewrite list_lookup_fmap.
  destruct (cols !! i) as [c|] eqn:Ec; simpl.
  - unfold cell_at.
    destruct (list_find (λ x, x = c) cols) as [[j y]|] eqn:Ef.
    + apply list_find_Some in Ef as (Hj & -> & _).
      rewrite (NoDup_lookup _ _ _ _ Hnd Hj Ec).
      destruct (row !! i) eqn:Er; [done|].
      apply lookup_ge_None in Er. apply lookup_lt_Some in Ec.
      unfold cell in *. lia.
    + apply list_find_None in Ef. rewrite Forall_forall in Ef.
      exfalso. apply (Ef c); [|done]. by apply list_elem_of_lookup_2 in Ec.
  - symmetry. apply lookup_ge_None. apply lookup_ge_None in Ec.
    unfold cell in *. lia.
Qed.

Lemma concat_frames_uniform (cols : list string) (dfs : list DataFrame) :
  NoDup cols → dfs ≠ [] →
  (∀ df, df ∈ dfs →
         columns df = cols ∧ ∀ row, row ∈ rows df → length row = length cols) →
  concat_frames dfs = mkDataFrame cols (dfs ≫= rows).
Proof.
  intros Hnd Hne Hall. unfold concat_frames.
  rewrite (union_columns_uniform cols) by (try done; intros df Hdf; by apply Hall).
  f_equal. clear Hne. induction dfs as [|df dfs IH]; [done|].
  cbn [mbind list_bind]. f_equal.
  - unfold block, reindex. destruct (Hall df ltac:(left)) as [-> Hrows].
    clear Hall IH. induction (rows df) as [|row rs IHr]; [done|].
    cbn [fmap list_fmap]. f_equal.
    + apply cell_at_own; [done|]. apply Hrows. by left.
    + apply IHr. intros r Hr. apply Hrows. by right.
  - apply IH. intros df' Hdf'. apply Hall. by right.
Qed.

(* --------------------------------------------------------------------- *)
(* What does not depend on the schedule                                   *)
(* --------------------------------------------------------------------- *)

Lemma saved_files_comm W ticker frequency save_to_disk output_dir m d1 d2 :
  saved_files W ticker frequency save_to_disk output_dir
    (saved_files W ticker frequency save_to_disk output_dir m d1) d2
  = saved_files W ticker frequency save_to_disk output_dir
      (saved_files W ticker frequency save_to_disk output_dir m d2) d1.
Proof.
  destruct (decide (d1 = d2)) as [->|Hne]; [done|].
  unfold saved_files. destruct save_to_disk; [|done].
  destruct (fetch_result W ticker frequency true output_dir d1) as [[t1|]|e1];
    destruct (fetch_result W ticker frequency true output_dir d2) as [[t2|]|e2];
    try done.
  apply insert_insert_ne. intros Heq. by apply csv_path_inj in Heq.
Qed.

Lemma saved_files_perm W ticker frequency save_to_disk output_dir l1 l2 :
  l1 ≡ₚ l2 →
  ∀ m, foldl (saved_files W ticker frequency save_to_disk output_dir) m l1
       = foldl (saved_files W ticker frequency save_to_disk output_dir) m l2.
Proof.
  induction 1 as [|x l1 l2 _ IH|x y l|l1 l2 l3 _ IH1 _ IH2]; intros m; cbn [foldl].
  - done.
  - apply IH.
  - by rewrite saved_files_comm.
  - by rewrite IH1, IH2.
Qed.

(** X6. What a run yields beyond the order of things does not depend
    on how the pool schedules the fetches: under any two schedulers,
    from the same state, the returned frames have the same number of
    rows and the same column labels, the same files are on disk
    afterwards, the same requests have been sent and as many errors
    logged. *)
Theorem schedule_changes_order_only
    (W : World) (S1 S2 : Scheduler) (ticker frequency : string)
    (save_to_disk : bool) (output_dir : string)
    (dates : option (list string)) (available : list string) (st : Runtime) :
  listing W ticker frequency = Returned available →
  ∃ df1 st1 df2 st2,
    get_combined_data W S1 ticker frequency save_to_disk output_dir dates st
    = (Returned df1, st1)
    ∧ get_combined_data W S2 ticker frequency save_to_disk output_dir dates st
      = (Returned df2, st2)
    ∧ len df1 = len df2
    ∧ (∀ c, c ∈ columns df1 ↔ c ∈ columns df2)
    ∧ files st1 = files st2
    ∧ requested st1 ≡ₚ requested st2
    ∧ errors st1 = errors st2.
Proof.
  intros HL.
  pose proof (get_combined_data_errors W S1 ticker frequency save_to_disk output_dir
                dates available st HL) as He1.
  pose proof (get_combined_data_errors W S2 ticker frequency save_to_disk output_dir
                dates available st HL) as He2.
  pose proof (get_combined_data_files W S1 ticker frequency save_to_disk output_dir
                dates available st HL) as Hf1.
  pose proof (get_combined_data_files W S2 ticker frequency save_to_disk output_dir
                dates available st HL) as Hf2.
  destruct (get_combined_data_eq W S1 ticker frequency save_to_disk output_dir
              dates available st HL) as (st1 & _ & _ & E1 & _ & _ & _ & R1).
  destruct (get_combined_data_eq W S2 ticker frequency save_to_disk output_dir
              dates available st HL) as (st2 & _ & _ & E2 & _ & _ & _ & R2).
  rewrite E1 in *. rewrite E2 in *. simpl in *.
  pose proof (successes_perm _ _
                (collected_perm W S1 ticker frequency save_to_disk output_dir
                   (effective dates available))) as P1.
  pose proof (successes_perm _ _
                (collected_perm W S2 ticker frequency save_to_disk output_dir
                   (effective dates available))) as P2.
  eexists _, st1, _, st2. split; [reflexivity|]. split; [reflexivity|].
  split; [by rewrite !concat_frames_len, P1, P2|]. split.
  - intros c. unfold concat_frames. simpl. rewrite !union_columns_elem.
    split; intros (df & Hdf & Hc); exists df; split; try done.
    + rewrite P2. by rewrite <- P1.
    + rewrite P1. by rewrite <- P2.
  - split; [|split; [by rewrite R1, R2|by rewrite He1, He2]].
    rewrite Hf1, Hf2. apply saved_files_perm.
    by rewrite !run_order_perm.
Qed.

Lemma schedule_changes_order_only_witness :
  ∃ df1 st1 df2 st2,
    get_combined_data Demo.world fifo "BTCUSDT" "1d" true "kucoin_data" None boot
    = (Returned df1, st1)
    ∧ get_combined_data Demo.world latest_first "BTCUSDT" "1d" true "kucoin_data"
        None boot
      = (Returned df2, st2)
    ∧ len df1 = len df2
    ∧ (∀ c, c ∈ columns df1 ↔ c ∈ columns df2)
    ∧ files st1 = files st2
    ∧ requested st1 ≡ₚ requested st2
    ∧ errors st1 = errors st2.
Proof.
  exact (schedule_changes_order_only Demo.world fifo latest_first "BTCUSDT" "1d" true
           "kucoin_data" None [Demo.day1; Demo.day2; Demo.day3] boot eq_refl).
Defined.

(** The order itself does depend on the schedule. *)
Example schedule_changes_row_order :
  (get_combined_data Demo.world fifo "BTCUSDT" "1d" false "kucoin_data" None boot).1
  ≠ (get_combined_data Demo.world latest_first "BTCUSDT" "1d" false "kucoin_data"
       None boot).1.
Proof. vm_compute. discriminate. Qed.

(** X7. When every table fetched has the same header, with distinct
    labels, and rows as wide as the header, the returned frame has that
    header and its rows are the rows of the tables, each table's rows in
    their own order, table after table in the order the futures were
    handed back; nothing is filled in or dropped. Without any table the
    frame is [pd.DataFrame()]. *)
Theorem uniform_tables_are_stacked
    (W : World) (S : Scheduler) (ticker frequency : string)
    (save_to_disk : bool) (output_dir : string)
    (dates : option (list string)) (available cols : list string) (st : Runtime) :
  listing W ticker frequency = Returned available →
  NoDup cols →
  (∀ d table,
     d ∈ effective dates available →
     fetch_result W ticker frequency save_to_disk output_dir d = Returned (Some table) →
     columns table = cols ∧ ∀ row, row ∈ rows table → length row = length cols) →
  let tables :=
    successes (collected W S ticker frequency save_to_disk output_dir
                 (effective dates available)) in
  tables ≡ₚ successes (outcomes W ticker frequency save_to_disk output_dir
                         (effective dates available))
  ∧ (get_combined_data W S ticker frequency save_to_disk output_dir dates st).1
    = Returned (match tables with
                | [] => Pandas.empty
                | _ :: _ => mkDataFrame cols (tables ≫= rows)
                end).
Proof.
  intros HL Hnd Hall tables.
  pose proof (successes_perm _ _
                (collected_perm W S ticker frequency save_to_disk output_dir
                   (effective dates available))) as Hperm.
  split; [exact Hperm|].
  destruct (get_combined_data_eq W S ticker frequency save_to_disk output_dir
              dates available st HL) as (st' & _ & _ & -> & _).
  simpl. f_equal. fold tables.
  destruct tables as [|t ts] eqn:Et; [done|]. rewrite <- Et.
  apply concat_frames_uniform; [done|by rewrite Et|].
  intros df Hdf. unfold tables in Hdf. rewrite Hperm in Hdf.
  apply successes_elem in Hdf as (d & Hd).
  unfold outcomes in Hd. apply list_elem_of_fmap in Hd as (d' & Heq & Hd').
  simplify_eq. by apply (Hall d').
Qed.

Lemma uniform_tables_are_stacked_witness :
  (get_combined_data Demo.world fifo "BTCUSDT" "1d" false "kucoin_data"
     (Some [Demo.day2; Demo.day3; Demo.day1]) boot).1
  = Returned (mkDataFrame ["time"; "close"]
                (rows Demo.fifteen_rows ++ rows Demo.ten_rows)).
Proof.
  destruct (uniform_tables_are_stacked Demo.world fifo "BTCUSDT" "1d" false
              "kucoin_data" (Some [Demo.day2; Demo.day3; Demo.day1])
              [Demo.day1; Demo.day2; Demo.day3] ["time"; "close"] boot eq_refl)
    as (_ & ->).
  - apply (bool_decide_unpack (NoDup ["time"; "close"])). vm_compute. exact I.
  - intros d table Hd Hr. apply list_elem_of_In in Hd. simpl in Hd.
    destruct Hd as [<-|[<-|[<-|[]]]]; vm_compute in Hr; simplify_eq;
      (split; [reflexivity|]);
      intros row Hrow; apply list_elem_of_In in Hrow; simpl in Hrow;
      repeat (destruct Hrow as [<-|Hrow]; [reflexivity|]); destruct Hrow.
  - vm_compute. reflexivity.
Defined.

(* --------------------------------------------------------------------- *)
(* Requests and the closing log record                                    *)
(* --------------------------------------------------------------------- *)

Lemma effective_listed dates available d :
  d ∈ effective dates available → d ∈ available.
Proof.
  destruct dates as [ds|]; simpl; [|done].
  rewrite list_elem_of_filter. tauto.
Qed.

Lemma requests_are_listed
    (W : World) (S : Scheduler) (ticker frequency : string)
    (save_to_disk : bool) (output_dir : string)
    (dates : option (list string)) (available : list string) (st : Runtime) :
  listing W ticker frequency = Returned available →
  let st' := (get_combined_data W S ticker frequency save_to_disk output_dir dates st).2 in
  (∀ u, u ∈ requested st' →
        u ∈ requested st
        ∨ ∃ d, d ∈ available ∧ u = download_url ticker frequency d)
  ∧ (dates = None →
     requested st' ≡ₚ requested st ++ (download_url ticker frequency <$> available)).
Proof.
  intros HL st'. subst st'.
  destruct (get_combined_data_eq W S ticker frequency save_to_disk output_dir
              dates available st HL) as (st' & _ & _ & -> & _ & _ & _ & R).
  simpl. split.
  - intros u Hu. rewrite R in Hu. apply elem_of_app in Hu as [Hu|Hu]; [by left|].
    right. apply list_elem_of_fmap in Hu as (d & -> & Hd).
    exists d. split; [|done]. by apply (effective_listed dates).
  - intros ->. exact R.
Qed.

(** X8. The call never asks the server for a date the listing does not
    show: every request it adds is the download URL of a listed date.
    Called without a date list, it requests every listed date, once per
    entry of the listing. *)
Theorem only_listed_dates_are_requested
    (W : World) (S : Scheduler) (ticker frequency : string)
    (save_to_disk : bool) (output_dir : string)
    (dates : option (list string)) (available : list string) (st : Runtime) :
  listing W ticker frequency = Returned available →
  let st' := (get_combined_data W S ticker frequency save_to_disk output_dir dates st).2 in
  (∀ u, u ∈ requested st' →
        u ∈ requested st
        ∨ ∃ d, d ∈ available ∧ u = download_url ticker frequency d)
  ∧ (dates = None →
     requested st' ≡ₚ requested st ++ (download_url ticker frequency <$> available)).
Proof.
  exact (requests_are_listed W S ticker frequency save_to_disk output_dir dates
           available st).
Qed.

Lemma only_listed_dates_are_requested_witness :
  requested (get_combined_data Demo.world lifo "BTCUSDT" "1d" false "kucoin_data"
               None boot).2
  ≡ₚ requested boot
     ++ (download_url "BTCUSDT" "1d" <$> [Demo.day1; Demo.day2; Demo.day3]).
Proof.
  exact (proj2 (only_listed_dates_are_requested Demo.world lifo "BTCUSDT" "1d" false
                  "kucoin_data" None [Demo.day1; Demo.day2; Demo.day3] boot eq_refl)
           eq_refl).
Defined.

(** X9. When the listing is obtained, the last record the call logs
    tells how it ended: a WARNING that no dates are available when
    nothing was requested, a WARNING that no data was downloaded when no
    fetch returned a table, and otherwise an INFO record whose row count
    is the number of rows of the frame the call returns. *)
Theorem closing_record_reports_the_outcome
    (W : World) (S : Scheduler) (ticker frequency : string)
    (save_to_disk : bool) (output_dir : string)
    (dates : option (list string)) (available : list string) (st : Runtime) :
  listing W ticker frequency = Returned available →
  ∃ df st',
    get_combined_data W S ticker frequency save_to_disk output_dir dates st
    = (Returned df, st')
    ∧ last (log st')
      = Some
          (match effective dates available with
           | [] => mkLog WARNING ("No dates available for ticker " +:+ ticker
                                  +:+ " and frequency " +:+ frequency +:+ ".")
           | _ :: _ =>
               match successes (outcomes W ticker frequency save_to_disk output_dir
                                  (effective dates available)) with
               | [] => mkLog WARNING ("No data was downloaded for ticker "
                                      +:+ ticker +:+ ".")
               | _ :: _ => mkLog INFO ("Combined data contains " +:+ pretty (len df)
                                       +:+ " rows.")
               end
           end).
Proof.
  intros HL.
  pose proof (successes_perm _ _
                (collected_perm W S ticker frequency save_to_disk output_dir
                   (effective dates available))) as Hperm.
  unfold get_combined_data. unfold mbind at 1, Py_bind, bind.
  destruct (resolve_dates_eq W ticker frequency dates available st HL) as (r0 & -> & _).
  destruct (effective dates available) as [|d ds] eqn:Eeff.
  - py_unfold. simpl. eexists _, _. split; [reflexivity|]. simpl.
    by rewrite last_snoc.
  - unfold mbind, Py_bind, bind.
    match goal with |- context [retrieve _ _ _ _ _ _ _ ?s] =>
      destruct (retrieve_eq W S ticker frequency save_to_disk output_dir (d :: ds) s)
        as (st1 & -> & _)
    end.
    destruct (successes (collected W S ticker frequency save_to_disk output_dir
                           (d :: ds))) as [|t ts] eqn:Es.
    + apply Permutation_nil_l in Hperm. rewrite <- Hperm.
      unfold combine. py_unfold. eexists _, _. split; [reflexivity|]. simpl.
      by rewrite last_snoc.
    + destruct (successes (outcomes W ticker frequency save_to_disk output_dir
                             (d :: ds))) as [|t' ts'] eqn:Eo.
      { by apply Permutation_nil_r in Hperm. }
      unfold combine, Pandas.concat. py_unfold.
      eexists _, _. split; [reflexivity|]. simpl. by rewrite last_snoc.
Qed.

Lemma closing_record_reports_the_outcome_witness :
  ∃ df st',
    get_combined_data Demo.world lifo "BTCUSDT" "1d" false "kucoin_data" None boot
    = (Returned df, st')
    ∧ len df = 25%nat
    ∧ last (log st') = Some (mkLog INFO "Combined data contains 25 rows.").
Proof.
  destruct (closing_record_reports_the_outcome Demo.world lifo "BTCUSDT" "1d" false
              "kucoin_data" None [Demo.day1; Demo.day2; Demo.day3] boot eq_refl)
    as (df & st' & E & Hlast).
  assert ((get_combined_data Demo.world lifo "BTCUSDT" "1d" false "kucoin_data"
             None boot).1 = Returned df) as Hdf by (by rewrite E).
  vm_compute in Hdf. injection Hdf as <-.
  eexists _, st'. split; [exact E|]. split; [vm_compute; reflexivity|].
  rewrite Hlast. vm_compute. reflexivity.
Defined.

(* --------------------------------------------------------------------- *)
(* The matcher                                                            *)
(* --------------------------------------------------------------------- *)

Module ReFacts.
Import Re.

Lemma accepts_lit a c : accepts (Lit c) a = true ↔ a = c.
Proof. simpl. apply Ascii.eqb_eq. Qed.

Lemma accepts_dot a : accepts Dot a = true ↔ a ≠ newline.
Proof.
  simpl. rewrite negb_true_iff. split.
  - intros H ->. by rewrite Ascii.eqb_refl in H.
  - intros H. by apply Ascii.eqb_neq.
Qed.

Lemma run_one_inv k p i b s r :
  run (One k :: p) i b s = Some r →
  ∃ a s' r', s = a :: s' ∧ accepts k a = true
             ∧ run p i false s' = Some r' ∧ r = keep i a r'.
Proof.
  cbn [run]. destruct s as [|a s']; [done|].
  destruct (accepts k a) eqn:Ha; [|done].
  destruct (run p i false s') as [r'|] eqn:Hr; [|done].
  intros [= <-]. by exists a, s', r'.
Qed.

Lemma run_open p i b s : run (Open :: p) i b s = run p true b s.
Proof. reflexivity. Qed.

Lemma run_close p i b s : run (Close :: p) i b s = run p false b s.
Proof. reflexivity. Qed.

Lemma run_nil i b s : run [] i b s = Some [].
Proof. reflexivity. Qed.

Lemma run_eol_inv p i b s r :
  run (Eol :: p) i b s = Some r → at_end s = true ∧ run p i b s = Some r.
Proof. cbn [run]. by destruct (at_end s). Qed.

Lemma lazy_loop_inv k i cont b s r :
  lazy_loop k i cont b s = Some r →
  ∃ u v b' r', s = u ++ v ∧ forallb (accepts k) u = true
               ∧ cont b' v = Some r' ∧ r = kept i u r'.
Proof.
  revert b r. induction s as [|a s IH]; intros b r H; cbn [lazy_loop] in H.
  - destruct (cont b []) as [r'|] eqn:Hc; [|done]. injection H as <-.
    exists [], [], b, r'. by destruct i.
  - destruct (cont b (a :: s)) as [r'|] eqn:Hc.
    + injection H as <-. exists [], (a :: s), b, r'. by destruct i.
    + destruct (accepts k a) eqn:Ha; [|done].
      destruct (lazy_loop k i cont false s) as [r0|] eqn:Hl; [|done].
      injection H as <-.
      destruct (IH _ _ Hl) as (u & v & b' & r' & -> & Hu & Hv & ->).
      exists (a :: u), v, b', r'. simpl. rewrite Ha, Hu. by destruct i.
Qed.

Lemma greedy_loop_inv k i cont b s r :
  greedy_loop k i cont b s = Some r →
  ∃ u v b' r', s = u ++ v ∧ forallb (accepts k) u = true
               ∧ cont b' v = Some r' ∧ r = kept i u r'.
Proof.
  revert b r. induction s as [|a s IH]; intros b r H; cbn [greedy_loop] in H.
  - exists [], [], b, r. by destruct i.
  - destruct (accepts k a) eqn:Ha.
    + destruct (greedy_loop k i cont false s) as [r0|] eqn:Hl.
      * injection H as <-.
        destruct (IH _ _ Hl) as (u & v & b' & r' & -> & Hu & Hv & ->).
        exists (a :: u), v, b', r'. simpl. rewrite Ha, Hu. by destruct i.
      * exists [], (a :: s), b, r. by destruct i.
    + exists [], (a :: s), b, r. by destruct i.
Qed.

Lemma search_from_inv p b s r :
  search_from p b s = Some r →
  ∃ u v b', s = u ++ v ∧ run p false b' v = Some r.
Proof.
  revert b. induction s as [|a s IH]; intros b H; cbn [search_from] in H.
  - destruct (run p false b []) eqn:Hr; [|done]. injection H as <-. by exists [], [], b.
  - destruct (run p false b (a :: s)) eqn:Hr.
    + injection H as <-. by exists [], (a :: s), b.
    + destruct (IH _ H) as (u & v & b' & -> & Hv). by exists (a :: u), v, b'.
Qed.

(** [k*?] stops at the first place where the rest of the pattern
    matches. *)
Lemma lazy_loop_first k i cont b u v r :
  forallb (accepts k) u = true →
  (∀ b', cont b' v = Some r) →
  (∀ u1 u2 b', u = u1 ++ u2 → u2 ≠ [] → cont b' (u2 ++ v) = None) →
  lazy_loop k i cont b (u ++ v) = Some (kept i u r).
Proof.
  revert b. induction u as [|a u IH]; intros b Hu Hv Hnone.
  - simpl. destruct v; cbn [lazy_loop]; rewrite Hv; by destruct i.
  - simpl in Hu. apply andb_true_iff in Hu as [Ha Hu].
    pose proof (Hnone [] (a :: u) b eq_refl ltac:(done)) as H0.
    cbn [app lazy_loop] in *. rewrite H0.
    rewrite Ha, IH; [by destruct i|done|done|].
    intros u1 u2 b' -> Hne. by apply (Hnone (a :: u1) u2).
Qed.

(** [k*], when the rest of the pattern matches nowhere further right,
    ends where it is told to. *)
Lemma greedy_loop_fallback k i cont b v :
  (∀ v1 v2 b', v = v1 ++ v2 → v1 ≠ [] → cont b' v2 = None) →
  greedy_loop k i cont b v = cont b v.
Proof.
  revert b. induction v as [|a v IH]; intros b Hnone; [done|].
  cbn [greedy_loop]. destruct (accepts k a); [|done].
  rewrite IH.
  - by rewrite (Hnone [a] v false eq_refl).
  - intros v1 v2 b' -> Hne. by apply (Hnone (a :: v1) v2).
Qed.

Lemma greedy_loop_last k i cont b u v r :
  forallb (accepts k) u = true →
  (∀ b', cont b' v = Some r) →
  (∀ v1 v2 b', v = v1 ++ v2 → v1 ≠ [] → cont b' v2 = None) →
  greedy_loop k i cont b (u ++ v) = Some (kept i u r).
Proof.
  revert b. induction u as [|a u IH]; intros b Hu Hv Hnone.
  - simpl. rewrite greedy_loop_fallback by done. rewrite Hv. by destruct i.
  - simpl in Hu. apply andb_true_iff in Hu as [Ha Hu].
    cbn [app greedy_loop]. rewrite Ha, IH by done. by destruct i.
Qed.

(** A match consumes at least one character per single-character item. *)
Lemma run_min_length p i b s r :
  run p i b s = Some r → (min_length p ≤ length s)%nat.
Proof.
  revert i b s r. induction p as [|it p IH]; intros i b s r H; [simpl; lia|].
  destruct it; cbn [min_length].
  - apply run_one_inv in H as (a & s' & r' & -> & _ & H & _).
    apply IH in H. simpl. lia.
  - cbn [run] in H. apply lazy_loop_inv in H as (u & v & b' & r' & -> & _ & H & _).
    apply IH in H. rewrite length_app. lia.
  - cbn [run] in H. apply greedy_loop_inv in H as (u & v & b' & r' & -> & _ & H & _).
    apply IH in H. rewrite length_app. lia.
  - cbn [run] in H. by apply IH in H.
  - cbn [run] in H. by apply IH in H.
  - cbn [run] in H. destruct b; [|done]. by apply IH in H.
  - apply run_eol_inv in H as [_ H]. by apply IH in H.
Qed.

End ReFacts.

(* --------------------------------------------------------------------- *)
(* The three patterns                                                     *)
(* --------------------------------------------------------------------- *)

Module PatternFacts.
Import Re ReFacts.

Local Abbreviation chars := Stdlib.Strings.String.list_ascii_of_string.
Local Abbreviation text := Stdlib.Strings.String.string_of_list_ascii.

Lemma chars_text l : chars (text l) = l.
Proof. apply Stdlib.Strings.String.list_ascii_of_string_of_list_ascii. Qed.

Lemma text_chars s : text (chars s) = s.
Proof. apply Stdlib.Strings.String.string_of_list_ascii_of_string. Qed.

Lemma chars_app s t : chars (s +:+ t) = chars s ++ chars t.
Proof.
  induction s as [|c s IH]; [done|]. rewrite append_cons. simpl. by rewrite IH.
Qed.

Lemma text_app l m : text (l ++ m) = text l +:+ text m.
Proof. induction l as [|c l IH]; [done|]. simpl. by rewrite IH. Qed.

Lemma chars_inj s t : chars s = chars t → s = t.
Proof. intros H. by rewrite <- (text_chars s), H, text_chars. Qed.

Ltac one_inv H :=
  let a := fresh "a" in
  let s := fresh "s" in
  let r := fresh "r" in
  let Ha := fresh "Ha" in
  apply run_one_inv in H as (a & s & r & -> & Ha & H & ->).

(** The shape of a date, on the characters. *)
Lemma date_shape_chars (r : list ascii) :
  date_shape (text r) = true ↔
  ∃ y1 y2 y3 y4 m1 m2 d1 d2,
    r = [y1; y2; y3; y4; "-"%char; m1; m2; "-"%char; d1; d2]
    ∧ is_digit y1 = true ∧ is_digit y2 = true ∧ is_digit y3 = true
    ∧ is_digit y4 = true ∧ is_digit m1 = true ∧ is_digit m2 = true
    ∧ is_digit d1 = true ∧ is_digit d2 = true.
Proof.
  unfold date_shape. rewrite chars_text. split.
  - destruct r as [|y1 [|y2 [|y3 [|y4 [|s1 [|m1 [|m2 [|s2 [|d1 [|d2 [|]]]]]]]]]]];
      try done.
    rewrite !andb_true_iff, !Ascii.eqb_eq.
    intros (((((((((?&?)&?)&?)&->)&?)&?)&->)&?)&?).
    by exists y1, y2, y3, y4, m1, m2, d1, d2.
  - intros (y1&y2&y3&y4&m1&m2&d1&d2&->&H1&H2&H3&H4&H5&H6&H7&H8).
    by rewrite H1, H2, H3, H4, H5, H6, H7, H8.
Qed.

Lemma date_body_inv b v r :
  run date_body false b v = Some r →
  ∃ e, v = "-"%char :: r ++ chars ".zip" ++ e
       ∧ at_end e = true ∧ date_shape (text r) = true.
Proof.
  intros H. change date_body with
    ([One (Lit "-")] ++ [Open] ++ digits 4 ++ [One (Lit "-")] ++ digits 2
     ++ [One (Lit "-")] ++ digits 2 ++ [Close] ++ lits ".zip" ++ [Eol]) in H.
  cbn [app digits replicate lits fmap list_fmap Stdlib.Strings.String.list_ascii_of_string]
    in H.
  one_inv H. rewrite run_open in H.
  do 10 one_inv H. rewrite run_close in H. do 4 one_inv H.
  apply run_eol_inv in H as [He H]. rewrite run_nil in H. injection H as <-.
  repeat match goal with
         | H : accepts (Lit _) _ = true |- _ => apply accepts_lit in H; subst
         end.
  cbn [keep accepts] in *.
  eexists. split; [reflexivity|]. split; [done|].
  apply date_shape_chars. eexists _, _, _, _, _, _, _, _. by repeat split.
Qed.

Lemma date_body_ok b r e :
  date_shape (text r) = true → at_end e = true →
  run date_body false b ("-"%char :: r ++ chars ".zip" ++ e) = Some r.
Proof.
  intros (y1&y2&y3&y4&m1&m2&d1&d2&->&H1&H2&H3&H4&H5&H6&H7&H8)%date_shape_chars He.
  change date_body with
    ([One (Lit "-")] ++ [Open] ++ digits 4 ++ [One (Lit "-")] ++ digits 2
     ++ [One (Lit "-")] ++ digits 2 ++ [Close] ++ lits ".zip" ++ [Eol]).
  cbn [app digits replicate lits fmap list_fmap Stdlib.Strings.String.list_ascii_of_string
       run accepts].
  rewrite H1, H2, H3, H4, H5, H6, H7, H8. cbn. by rewrite He.
Qed.

Lemma at_end_cases e : at_end e = true ↔ e = [] ∨ e = [newline].
Proof.
  destruct e as [|a [|b e]]; simpl.
  - split; [by left|done].
  - rewrite Ascii.eqb_eq. split; [intros ->; by right|intros [|[= ->]]; done].
  - split; [done|intros [|]; done].
Qed.

(** Two strings that end in the same character, not a newline, before
    what [$] accepts, end in the same way. *)
Lemma same_line_end (A B e e' : list ascii) (p : ascii) :
  at_end e = true → at_end e' = true → p ≠ newline →
  A ++ p :: e = B ++ p :: e' → A = B ∧ e = e'.
Proof.
  intros [->| ->]%at_end_cases [->| ->]%at_end_cases Hp H.
  - by apply app_inj_tail in H as [-> _].
  - change (B ++ [p; newline]) with (B ++ [p] ++ [newline]) in H.
    rewrite app_assoc in H. apply app_inj_tail in H as [_ ->]. done.
  - change (A ++ [p; newline]) with (A ++ [p] ++ [newline]) in H.
    rewrite app_assoc in H. apply app_inj_tail in H as [_ <-]. done.
  - apply app_inj_2 in H as [-> _]; done.
Qed.

Lemma zip_body_inv b v r :
  run zip_body true b v = Some r →
  r = chars ".zip" ∧ ∃ e, v = chars ".zip" ++ e ∧ at_end e = true.
Proof.
  intros H. change zip_body with (lits ".zip" ++ [Close; Eol]) in H.
  cbn [app lits fmap list_fmap Stdlib.Strings.String.list_ascii_of_string] in H.
  do 4 one_inv H. rewrite run_close in H.
  apply run_eol_inv in H as [He H]. rewrite run_nil in H. injection H as <-.
  repeat match goal with
         | H : accepts (Lit _) _ = true |- _ => apply accepts_lit in H; subst
         end.
  split; [done|]. by eexists.
Qed.

Lemma zip_body_ok b e :
  at_end e = true → run zip_body true b (chars ".zip" ++ e) = Some (chars ".zip").
Proof. intros He. cbn. by rewrite He. Qed.

Lemma zip_body_later b u e :
  u ≠ [] → at_end e = true → run zip_body true b (u ++ chars ".zip" ++ e) = None.
Proof.
  intros Hu He. destruct (run zip_body true b _) as [r|] eqn:H; [|done].
  apply zip_body_inv in H as (_ & e' & H & He').
  apply at_end_cases in He as [->| ->]; apply at_end_cases in He' as [->| ->];
    destruct u as [|a [|a' u]]; try done;
    apply (f_equal length) in H as Hlen; simpl in Hlen; rewrite ?length_app in Hlen;
    simpl in Hlen; lia.
Qed.

Lemma zip_re_inv b s g :
  run zip_re false b s = Some g →
  ∃ c u e, s = "/"%char :: c :: u ++ chars ".zip" ++ e
           ∧ g = c :: u ++ chars ".zip"
           ∧ forallb (accepts Dot) (c :: u) = true ∧ at_end e = true.
Proof.
  intros H. change zip_re with
    (One (Lit "/") :: Open :: One Dot :: Lazy Dot :: zip_body) in H.
  one_inv H. rewrite run_open in H. one_inv H.
  cbn [run] in H. apply lazy_loop_inv in H as (u & v & b' & r' & -> & Hu & H & ->).
  apply zip_body_inv in H as (-> & e & -> & He).
  apply accepts_lit in Ha. subst.
  exists a0, u, e. cbn [keep kept]. repeat split; try done.
  cbn [forallb]. by rewrite Ha0, Hu.
Qed.

Lemma zip_re_ok b c u e :
  forallb (accepts Dot) (c :: u) = true → at_end e = true →
  run zip_re false b ("/"%char :: c :: u ++ chars ".zip" ++ e)
  = Some (c :: u ++ chars ".zip").
Proof.
  intros Hcu He. cbn [forallb] in Hcu. apply andb_true_iff in Hcu as [Hc Hu].
  change zip_re with (One (Lit "/") :: Open :: One Dot :: Lazy Dot :: zip_body).
  cbn [run]. change (accepts (Lit "/"%char) "/"%char) with true. rewrite Hc.
  rewrite (lazy_loop_first Dot true (run zip_body true) false u
             (chars ".zip" ++ e) (chars ".zip")); [done|done| |].
  - intros b'. by apply zip_body_ok.
  - intros u1 u2 b' _ Hne. by apply zip_body_later.
Qed.

Lemma date_shape_length r : date_shape (text r) = true → length r = 10%nat.
Proof. intros (?&?&?&?&?&?&?&?&->&_)%date_shape_chars. done. Qed.

Lemma is_digit_dot a : is_digit a = true → accepts Dot a = true.
Proof.
  intros H. apply accepts_dot. intros ->. vm_compute in H. discriminate.
Qed.

Lemma date_shape_dot r : date_shape (text r) = true → forallb (accepts Dot) r = true.
Proof.
  intros (y1&y2&y3&y4&m1&m2&d1&d2&->&H1&H2&H3&H4&H5&H6&H7&H8)%date_shape_chars.
  cbn [forallb].
  rewrite (is_digit_dot y1), (is_digit_dot y2), (is_digit_dot y3), (is_digit_dot y4),
    (is_digit_dot m1), (is_digit_dot m2), (is_digit_dot d1), (is_digit_dot d2) by done.
  reflexivity.
Qed.

(** A one-line file name ending in [-{date}.zip] gives its date. *)
Lemma date_re_ok w d :
  forallb (accepts Dot) w = true → date_shape (text d) = true →
  run date_re false true (w ++ "-"%char :: d ++ chars ".zip") = Some d.
Proof.
  intros Hw Hd. change date_re with (Bol :: Greedy Dot :: date_body). cbn [run].
  rewrite (greedy_loop_last Dot false (run date_body false) true w
             ("-"%char :: d ++ chars ".zip") d); [done|done| |].
  - intros b'. rewrite <- (app_nil_r (chars ".zip")). by apply date_body_ok.
  - intros v1 v2 b' Hv Hne.
    destruct (run date_body false b' v2) as [r|] eqn:H; [|done].
    apply run_min_length in H. apply (f_equal length) in Hv.
    simpl in Hv. rewrite !length_app in Hv. simpl in Hv.
    rewrite (date_shape_length d Hd) in Hv.
    change (min_length date_body) with 15%nat in H.
    destruct v1; [done|]. simpl in Hv. lia.
Qed.

Lemma date_re_inv g d :
  run date_re false true g = Some d →
  ∃ w e, g = w ++ "-"%char :: d ++ chars ".zip" ++ e
         ∧ forallb (accepts Dot) w = true
         ∧ at_end e = true ∧ date_shape (text d) = true.
Proof.
  change date_re with (Bol :: Greedy Dot :: date_body). cbn [run]. intros H.
  apply greedy_loop_inv in H as (w & v & b' & r' & -> & Hw & H & ->).
  apply date_body_inv in H as (e & -> & He & Hd). by exists w, e.
Qed.

Ltac flat :=
  repeat first
    [ rewrite <- app_assoc
    | progress cbn [app Stdlib.Strings.String.list_ascii_of_string] ].

Ltac flat_in H :=
  repeat first
    [ rewrite <- app_assoc in H
    | progress cbn [app Stdlib.Strings.String.list_ascii_of_string] in H ].

(** The date of an href, on the characters: lines 125-131. *)
Lemma date_chars_sound b h d :
  match search_from zip_re b h with
  | Some g => run date_re false true g
  | None => None
  end = Some d →
  ∃ x u e, h = x ++ "/"%char :: u ++ "-"%char :: d ++ chars ".zip" ++ e
           ∧ forallb (accepts Dot) u = true
           ∧ date_shape (text d) = true ∧ at_end e = true.
Proof.
  destruct (search_from zip_re b h) as [g|] eqn:Hs; [|done]. intros Hd.
  apply search_from_inv in Hs as (x & v & b' & -> & Hz).
  apply zip_re_inv in Hz as (c & u0 & e & -> & -> & Hcu & He).
  apply date_re_inv in Hd as (w & e' & Hg & Hw & He' & Hshape).
  assert ((c :: u0 ++ chars ".zi") ++ "p"%char :: []
          = (w ++ "-"%char :: d ++ chars ".zi") ++ "p"%char :: e') as Heq.
  { flat. flat_in Hg. exact Hg. }
  apply same_line_end in Heq as [Heq <-]; [|done|done|done].
  exists x, w, e. split; [|done].
  rewrite app_nil_r in Hg.
  assert (c :: u0 ++ chars ".zip" ++ e = (c :: u0 ++ chars ".zip") ++ e) as ->
    by (by flat).
  rewrite Hg. by flat.
Qed.

Lemma date_chars_complete b x u d e :
  forallb (accepts Dot) u = true → date_shape (text d) = true → at_end e = true →
  match search_from zip_re b (x ++ "/"%char :: u ++ "-"%char :: d ++ chars ".zip" ++ e) with
  | Some g => run date_re false true g
  | None => None
  end = Some d.
Proof.
  intros Hu Hd He.
  assert (∀ b' x', run zip_re false b'
                     ("/"%char :: x' ++ "/"%char :: u ++ "-"%char :: d ++ chars ".zip" ++ e)
                   = None
                   ∨ ∃ g, run zip_re false b'
                            ("/"%char :: x' ++ "/"%char :: u ++ "-"%char :: d
                             ++ chars ".zip" ++ e) = Some g
                          ∧ run date_re false true g = Some d) as Hstep.
  { intros b' x'.
    destruct (run zip_re false b' _) as [g|] eqn:Hz; [right|by left].
    exists g. split; [done|].
    apply zip_re_inv in Hz as (c & u0 & e' & Heq & -> & Hcu & He').
    injection Heq as Heq.
    assert ((x' ++ "/"%char :: u ++ "-"%char :: d ++ chars ".zi") ++ "p"%char :: e
            = (c :: u0 ++ chars ".zi") ++ "p"%char :: e') as Heq'.
    { flat. flat_in Heq. exact Heq. }
    apply same_line_end in Heq' as [Heq' _]; [|done|done|done].
    assert (c :: u0 ++ chars ".zip"
            = (x' ++ "/"%char :: u) ++ "-"%char :: d ++ chars ".zip") as ->.
    { assert (c :: u0 ++ chars ".zip" = (c :: u0 ++ chars ".zi") ++ ["p"%char]) as ->
        by (by flat).
      rewrite <- Heq'. by flat. }
    apply date_re_ok; [|done].
    assert (forallb (accepts Dot) (c :: u0 ++ chars ".zi") = true) as Hall.
    { rewrite app_comm_cons, forallb_app, Hcu. reflexivity. }
    rewrite <- Heq' in Hall. rewrite !forallb_app in Hall.
    apply andb_true_iff in Hall as [Hx _]. rewrite forallb_app, Hx.
    cbn [forallb]. by rewrite Hu. }
  revert b. induction x as [|a x IH]; intros b.
  - cbn [app search_from].
    assert (∃ c w, u ++ "-"%char :: d = c :: w) as (c & w & Hcw).
    { destruct u; simpl; eauto. }
    assert (forallb (accepts Dot) (c :: w) = true) as Hall.
    { rewrite <- Hcw, forallb_app, Hu. cbn [forallb].
      by rewrite (date_shape_dot d Hd). }
    assert (u ++ "-"%char :: d ++ chars ".zip" ++ e = c :: w ++ chars ".zip" ++ e) as ->.
    { transitivity ((u ++ "-"%char :: d) ++ chars ".zip" ++ e); [by flat|].
      rewrite Hcw. by flat. }
    rewrite zip_re_ok by done.
    assert (c :: w ++ chars ".zip" = u ++ "-"%char :: d ++ chars ".zip") as ->.
    { transitivity ((u ++ "-"%char :: d) ++ chars ".zip"); [|by flat].
      rewrite Hcw. by flat. }
    by apply date_re_ok.
  - cbn [app search_from].
    destruct (run zip_re false b (a :: x ++ _)) as [g|] eqn:Hz; [|apply IH].
    assert (a = "/"%char) as ->.
    { apply zip_re_inv in Hz as (c & u0 & e' & Heq & _). by injection Heq. }
    destruct (Hstep b x) as [Hn|(g' & Hg' & Hok)]; [congruence|].
    rewrite Hz in Hg'. by injection Hg' as <-.
Qed.

Lemma ticker_body_inv b v r :
  run ticker_body true b v = Some r →
  r = [] ∧ ∃ e, v = "/"%char :: e ∧ at_end e = true.
Proof.
  intros H. change ticker_body with [Close; One (Lit "/"); Eol] in H.
  rewrite run_close in H. one_inv H.
  apply run_eol_inv in H as [He H]. rewrite run_nil in H. injection H as <-.
  apply accepts_lit in Ha. subst. split; [done|]. by eexists.
Qed.

Lemma ticker_body_ok b e :
  at_end e = true → run ticker_body true b ("/"%char :: e) = Some [].
Proof. intros He. cbn. by rewrite He. Qed.

Lemma ticker_body_later b t e :
  t ≠ [] → run ticker_body true b (t ++ "/"%char :: e) = None.
Proof.
  intros Ht. destruct (run ticker_body true b _) as [r|] eqn:H; [|done].
  apply ticker_body_inv in H as (_ & e' & H & He').
  destruct t as [|a t]; [done|]. injection H as -> H.
  apply at_end_cases in He' as [->| ->].
  - by destruct t.
  - destruct t as [|a' t]; [by injection H|]. injection H as _ H. by destruct t.
Qed.

Lemma ticker_re_inv b s t :
  run ticker_re false b s = Some t →
  ∃ e, s = chars "/klines/" ++ t ++ "/"%char :: e
       ∧ forallb (accepts Dot) t = true ∧ at_end e = true.
Proof.
  intros H. change ticker_re with
    (lits "/klines/" ++ Open :: Lazy Dot :: ticker_body) in H.
  cbn [app lits fmap list_fmap Stdlib.Strings.String.list_ascii_of_string] in H.
  do 8 one_inv H. rewrite run_open in H. cbn [run] in H.
  apply lazy_loop_inv in H as (u & v & b' & r' & -> & Hu & H & ->).
  apply ticker_body_inv in H as (-> & e & -> & He).
  repeat match goal with
         | H : accepts (Lit _) _ = true |- _ => apply accepts_lit in H; subst
         end.
  exists e. cbn [keep kept]. rewrite app_nil_r. by repeat split.
Qed.

Lemma ticker_re_ok b t e :
  forallb (accepts Dot) t = true → at_end e = true →
  run ticker_re false b (chars "/klines/" ++ t ++ "/"%char :: e) = Some t.
Proof.
  intros Ht He. change ticker_re with
    (lits "/klines/" ++ Open :: Lazy Dot :: ticker_body).
  cbn -[lazy_loop ticker_body].
  rewrite (lazy_loop_first Dot true (run ticker_body true) false t
             ("/"%char :: e) []); [|done| |].
  - cbn [kept keep fmap option_fmap option_map]. by rewrite app_nil_r.
  - intros b'. by apply ticker_body_ok.
  - intros u1 u2 b' _ Hne. by apply ticker_body_later.
Qed.

Lemma occurs_head w a s : occurs w (a :: s) = false →
  take (length w) (a :: s) ≠ w ∧ occurs w s = false.
Proof.
  cbn [occurs]. intros [H1 H2]%orb_false_iff. split; [|done].
  by apply bool_decide_eq_false in H1.
Qed.

Lemma search_from_hit p b s r :
  run p false b s = Some r → search_from p b s = Some r.
Proof. intros H. destruct s; cbn [search_from]; by rewrite H. Qed.

Lemma ticker_chars_sound b h t :
  search_from ticker_re b h = Some t →
  ∃ x e, h = x ++ chars "/klines/" ++ t ++ "/"%char :: e
         ∧ forallb (accepts Dot) t = true ∧ at_end e = true.
Proof.
  intros (x & v & b' & -> & H)%search_from_inv.
  apply ticker_re_inv in H as (e & -> & Ht & He). by exists x, e.
Qed.

Lemma ticker_chars_complete b x t e :
  occurs (chars "/klines/") (x ++ chars "/klines") = false →
  forallb (accepts Dot) t = true → at_end e = true →
  search_from ticker_re b (x ++ chars "/klines/" ++ t ++ "/"%char :: e) = Some t.
Proof.
  intros Hx Ht He. revert b. induction x as [|a x IH]; intros b.
  - rewrite app_nil_l. apply search_from_hit. by apply ticker_re_ok.
  - apply occurs_head in Hx as [Hhead Hx].
    rewrite <- app_comm_cons. cbn [search_from].
    destruct (run ticker_re false b _) as [r|] eqn:H; [|by apply IH].
    exfalso. apply Hhead.
    apply ticker_re_inv in H as (e' & Heq & _).
    assert (a :: x ++ chars "/klines/" ++ t ++ "/"%char :: e
            = (a :: x ++ chars "/klines") ++ "/"%char :: t ++ "/"%char :: e) as Hsplit
      by (by flat).
    rewrite Hsplit in Heq. apply (f_equal (take 8)) in Heq.
    rewrite take_app_le in Heq by (simpl; rewrite length_app; simpl; lia).
    exact Heq.
Qed.

(** The characters of a string put together with [+:+]. *)
Lemma date_href_chars x u d e :
  chars (x +:+ "/" +:+ u +:+ "-" +:+ d +:+ ".zip" +:+ e)
  = chars x ++ "/"%char :: chars u ++ "-"%char :: chars d ++ chars ".zip" ++ chars e.
Proof. by rewrite !chars_app. Qed.

Lemma ticker_href_chars x t e :
  chars (x +:+ "/klines/" +:+ t +:+ "/" +:+ e)
  = chars x ++ chars "/klines/" ++ chars t ++ "/"%char :: chars e.
Proof. by rewrite !chars_app. Qed.

Lemma one_line_chars s : one_line s = forallb (accepts Dot) (chars s).
Proof. reflexivity. Qed.

Lemma date_of_href_chars h :
  date_of_href h
  = text <$> match search_from zip_re true (chars h) with
             | Some g => run date_re false true g
             | None => None
             end.
Proof.
  unfold date_of_href, search, match_.
  destruct (search_from zip_re true (chars h)) as [g|]; [|done].
  simpl. by rewrite chars_text.
Qed.

End PatternFacts.

(* --------------------------------------------------------------------- *)
(* What the scrapers read off an href                                     *)
(* --------------------------------------------------------------------- *)

Lemma append_nil_r s : s +:+ "" = s.
Proof. induction s as [|c s IH]; [done|]. by rewrite append_cons, IH. Qed.

Lemma one_line_app s t : one_line (s +:+ t) = one_line s && one_line t.
Proof.
  rewrite !PatternFacts.one_line_chars, PatternFacts.chars_app. apply forallb_app.
Qed.

Lemma date_of_href_iff (href d : string) :
  date_of_href href = Some d ↔
  ∃ x u e, href = x +:+ "/" +:+ u +:+ "-" +:+ d +:+ ".zip" +:+ e
           ∧ one_line u = true ∧ date_shape d = true ∧ line_end e = true.
Proof.
  rewrite PatternFacts.date_of_href_chars. split.
  - destruct (match Re.search_from zip_re true _ with Some g => _ | None => None end)
      as [dl|] eqn:H; [|done].
    intros [= <-].
    apply PatternFacts.date_chars_sound in H as (x & u & e & Hh & Hu & Hd & He).
    exists (Stdlib.Strings.String.string_of_list_ascii x),
           (Stdlib.Strings.String.string_of_list_ascii u),
           (Stdlib.Strings.String.string_of_list_ascii e).
    split; [|split; [|split]].
    + apply PatternFacts.chars_inj.
      rewrite PatternFacts.date_href_chars, !PatternFacts.chars_text. exact Hh.
    + by rewrite PatternFacts.one_line_chars, PatternFacts.chars_text.
    + done.
    + unfold line_end. by rewrite PatternFacts.chars_text.
  - intros (x & u & e & -> & Hu & Hd & He).
    rewrite PatternFacts.date_href_chars.
    rewrite PatternFacts.date_chars_complete.
    + simpl. by rewrite PatternFacts.text_chars.
    + by rewrite <- PatternFacts.one_line_chars.
    + by rewrite PatternFacts.text_chars.
    + exact He.
Qed.

(** X10. The date read off an href (lines 125-132), for hrefs of
    characters below U+0100: an href yields the date [d] exactly when,
    up to one final newline, it ends in [-d.zip] with [d] of the form
    [dddd-dd-dd], and has a [/] before that with no newline in between.
    In particular every date the scraper extracts has that form. *)
Theorem date_of_href_spec (href d : string) :
  date_of_href href = Some d ↔
  ∃ x u e, href = x +:+ "/" +:+ u +:+ "-" +:+ d +:+ ".zip" +:+ e
           ∧ one_line u = true ∧ date_shape d = true ∧ line_end e = true.
Proof. exact (date_of_href_iff href d). Qed.

Lemma date_of_href_spec_witness :
  (∃ x u e, "a/b-1d-2024-07-02.zip" = x +:+ "/" +:+ u +:+ "-" +:+ "2024-07-02"
                                       +:+ ".zip" +:+ e
            ∧ one_line u = true ∧ date_shape "2024-07-02" = true ∧ line_end e = true)
  ∧ date_of_href ("a" +:+ "/" +:+ "b-1d" +:+ "-" +:+ "2024-07-02" +:+ ".zip" +:+ "")
    = Some "2024-07-02".
Proof.
  split.
  - exact (proj1 (date_of_href_spec "a/b-1d-2024-07-02.zip" "2024-07-02") eq_refl).
  - apply (proj2 (date_of_href_spec _ "2024-07-02")).
    by exists "a", "b-1d", "".
Defined.

(** X11. The href under which the site lists an archive gives back the
    date of that archive, and the URL [download_and_process] builds from
    that date is the URL of that very archive: for every ticker and
    frequency without a newline and every date of the form
    [dddd-dd-dd], with [key] the object key
    [data/spot/daily/klines/{ticker}/{frequency}/{ticker}-{frequency}-{date}.zip],
    the href [?prefix={key}] yields the date and the download URL is
    [{base_url}/{key}]. *)
Theorem listed_archive_is_the_one_downloaded (ticker frequency date : string) :
  one_line ticker = true → one_line frequency = true → date_shape date = true →
  let key := "data/spot/daily/klines/" +:+ ticker +:+ "/" +:+ frequency +:+ "/"
             +:+ zip_name ticker frequency date in
  date_of_href ("?prefix=" +:+ key) = Some date
  ∧ download_url ticker frequency date = base_url +:+ "/" +:+ key.
Proof.
  intros Ht Hf Hd key. split; [|reflexivity].
  apply date_of_href_iff.
  exists ("?prefix=data/spot/daily/klines/" +:+ ticker +:+ "/" +:+ frequency),
         (ticker +:+ "-" +:+ frequency), "".
  split; [|split; [|done]].
  - subst key. unfold zip_name. rewrite !append_assoc. reflexivity.
  - rewrite !one_line_app, Ht, Hf. reflexivity.
Qed.

Lemma listed_archive_is_the_one_downloaded_witness :
  date_of_href
    "?prefix=data/spot/daily/klines/BTCUSDT/1d/BTCUSDT-1d-2024-07-02.zip"
  = Some "2024-07-02"
  ∧ download_url "BTCUSDT" "1d" "2024-07-02"
    = "https://historical-data.kucoin.com/data/spot/daily/klines/BTCUSDT/1d/BTCUSDT-1d-2024-07-02.zip".
Proof.
  exact (listed_archive_is_the_one_downloaded "BTCUSDT" "1d" "2024-07-02"
           eq_refl eq_refl eq_refl).
Defined.

(** X12. The ticker read off an href (line 69), for hrefs of characters
    below U+0100: a ticker is extracted only from an href that, up to
    one final newline, ends in [/klines/{ticker}/], and the ticker has
    no newline in it. It may be empty and may contain [/]. *)
Theorem ticker_of_href_sound (href ticker : string) :
  ticker_of_href href = Some ticker →
  ∃ x e, href = x +:+ "/klines/" +:+ ticker +:+ "/" +:+ e
         ∧ one_line ticker = true ∧ line_end e = true.
Proof.
  unfold ticker_of_href, Re.search.
  destruct (Re.search_from ticker_re true _) as [t|] eqn:H; [|done].
  intros [= <-].
  apply PatternFacts.ticker_chars_sound in H as (x & e & Hh & Ht & He).
  exists (Stdlib.Strings.String.string_of_list_ascii x),
         (Stdlib.Strings.String.string_of_list_ascii e).
  split; [|split].
  - apply PatternFacts.chars_inj.
    rewrite PatternFacts.ticker_href_chars, !PatternFacts.chars_text. exact Hh.
  - by rewrite PatternFacts.one_line_chars, PatternFacts.chars_text.
  - unfold line_end. by rewrite PatternFacts.chars_text.
Qed.

Lemma ticker_of_href_sound_witness :
  ∃ x e, "?prefix=data/spot/daily/klines/BTCUSDT/"
         = x +:+ "/klines/" +:+ "BTCUSDT" +:+ "/" +:+ e
         ∧ one_line "BTCUSDT" = true ∧ line_end e = true.
Proof.
  exact (ticker_of_href_sound "?prefix=data/spot/daily/klines/BTCUSDT/" "BTCUSDT"
           eq_refl).
Defined.

(** X13. An href that ends in [/klines/{ticker}/], up to one final
    newline, gives back the ticker, provided the ticker has no newline
    and [/klines/] does not occur earlier in the href; the site's own
    hrefs, [?prefix=data/spot/daily/klines/{ticker}/], are of this
    kind. *)
Theorem ticker_of_href_complete (x ticker e : string) :
  contains "/klines/" (x +:+ "/klines") = false →
  one_line ticker = true → line_end e = true →
  ticker_of_href (x +:+ "/klines/" +:+ ticker +:+ "/" +:+ e) = Some ticker.
Proof.
  intros Hx Ht He. unfold ticker_of_href, Re.search.
  rewrite PatternFacts.ticker_href_chars.
  rewrite PatternFacts.ticker_chars_complete.
  - simpl. by rewrite PatternFacts.text_chars.
  - unfold contains in Hx. by rewrite PatternFacts.chars_app in Hx.
  - by rewrite <- PatternFacts.one_line_chars.
  - exact He.
Qed.

Lemma ticker_of_href_complete_witness :
  ticker_of_href ("?prefix=data/spot/daily" +:+ "/klines/" +:+ "1000SHIB-USDT" +:+ "/" +:+ "")
  = Some "1000SHIB-USDT".
Proof.
  exact (ticker_of_href_complete "?prefix=data/spot/daily" "1000SHIB-USDT" ""
           eq_refl eq_refl eq_refl).
Defined.

(** An href that ends in [/klines//] yields the empty ticker. *)
Example empty_ticker :
  ticker_of_href "?prefix=data/spot/daily/klines//" = Some "".
Proof. reflexivity. Qed.

(* --------------------------------------------------------------------- *)
(* The scrapers                                                           *)
(* --------------------------------------------------------------------- *)

Ltac hy_unfold :=
  unfold mbind, Hy_bind, mret, Hy_ret, try_finally, in_runtime, lift_host,
    Scrape.extend_PATH, Scrape.webdriver_Chrome, Scrape.driver_quit,
    Scrape.find_rows in *.

Lemma dates_of_rows_broken (rows : list Row) (dates : list string) :
  Some None ∈ rows → Scrape.dates_of_rows rows dates = Raised (mkExc "KeyError" "'href'").
Proof.
  revert dates. induction rows as [|row rows IH]; intros dates Hin.
  - by apply elem_of_nil in Hin.
  - cbn [Scrape.dates_of_rows]. destruct row as [[href|]|]; [| done |].
    + apply elem_of_cons in Hin as [Hin|Hin]; [done|].
      destruct (date_of_href href); by apply IH.
    + apply elem_of_cons in Hin as [Hin|Hin]; [done|]. by apply IH.
Qed.

Lemma dates_of_rows_sound_rows (rows : list Row) (dates : list string) :
  Some None ∉ rows →
  Scrape.dates_of_rows rows dates
  = Returned (dates ++ omap (λ row : Row, row ≫= (λ a_tag, a_tag ≫= date_of_href)) rows).
Proof.
  revert dates. induction rows as [|row rows IH]; intros dates Hin.
  - simpl. by rewrite app_nil_r.
  - apply not_elem_of_cons in Hin as [Hrow Hin].
    cbn [Scrape.dates_of_rows omap list_omap].
    destruct row as [[href|]|]; simpl; [| done |].
    + destruct (date_of_href href) as [d|]; rewrite IH by done; [|done].
      by rewrite <- app_assoc.
    + by rewrite IH.
Qed.

Lemma tickers_of_rows_broken (rows : list Row) (tickers : list string) :
  Some None ∈ rows →
  Scrape.tickers_of_rows rows tickers = Raised (mkExc "KeyError" "'href'").
Proof.
  revert tickers. induction rows as [|row rows IH]; intros tickers Hin.
  - by apply elem_of_nil in Hin.
  - cbn [Scrape.tickers_of_rows]. destruct row as [[href|]|]; [| done |].
    + apply elem_of_cons in Hin as [Hin|Hin]; [done|].
      destruct (ticker_of_href href); by apply IH.
    + apply elem_of_cons in Hin as [Hin|Hin]; [done|]. by apply IH.
Qed.

Lemma tickers_of_rows_sound_rows (rows : list Row) (tickers : list string) :
  Some None ∉ rows →
  Scrape.tickers_of_rows rows tickers
  = Returned (tickers
              ++ omap (λ row : Row, row ≫= (λ a_tag, a_tag ≫= ticker_of_href)) rows).
Proof.
  revert tickers. induction rows as [|row rows IH]; intros tickers Hin.
  - simpl. by rewrite app_nil_r.
  - apply not_elem_of_cons in Hin as [Hrow Hin].
    cbn [Scrape.tickers_of_rows omap list_omap].
    destruct row as [[href|]|]; simpl; [| done |].
    + destruct (ticker_of_href href) as [d|]; rewrite IH by done; [|done].
      by rewrite <- app_assoc.
    + by rewrite IH.
Qed.

(** X14. The two loops over the rows of a listing (lines 62-72 and
    118-132) return, in page order, what the pattern extracts from the
    href of each row's first link, skipping rows without a link and
    links whose href does not match; but a single link without an
    [href] attribute anywhere in the table makes the whole loop end in
    KeyError, whatever was collected before it. *)
Theorem row_loops (rows : list Row) :
  (Some None ∈ rows →
     Scrape.dates_of_rows rows [] = Raised (mkExc "KeyError" "'href'")
     ∧ Scrape.tickers_of_rows rows [] = Raised (mkExc "KeyError" "'href'"))
  ∧ (Some None ∉ rows →
     Scrape.dates_of_rows rows []
     = Returned (omap (λ row : Row, row ≫= (λ a_tag, a_tag ≫= date_of_href)) rows)
     ∧ Scrape.tickers_of_rows rows []
       = Returned (omap (λ row : Row, row ≫= (λ a_tag, a_tag ≫= ticker_of_href)) rows)).
Proof.
  split; intros H.
  - by rewrite dates_of_rows_broken, tickers_of_rows_broken.
  - by rewrite dates_of_rows_sound_rows, tickers_of_rows_sound_rows.
Qed.

Lemma row_loops_witness :
  Scrape.dates_of_rows DemoPage.date_rows []
  = Returned ["2024-07-01"; "2024-07-02"; "2024-07-03"]
  ∧ Scrape.tickers_of_rows DemoPage.ticker_rows [] = Returned ["BTCUSDT"; "ETHUSDT"].
Proof.
  assert (Some None ∉ DemoPage.date_rows) as Hd.
  { apply (bool_decide_unpack (Some None ∉ DemoPage.date_rows)). vm_compute. exact I. }
  assert (Some None ∉ DemoPage.ticker_rows) as Ht.
  { apply (bool_decide_unpack (Some None ∉ DemoPage.ticker_rows)). vm_compute. exact I. }
  split.
  - rewrite (proj1 (proj2 (row_loops DemoPage.date_rows) Hd)). vm_compute. reflexivity.
  - rewrite (proj2 (proj2 (row_loops DemoPage.ticker_rows) Ht)). vm_compute. reflexivity.
Defined.

(** X15. [get_tickers] from start to end. Without a PATH entry in the
    environment it raises KeyError before a browser is started. With
    one, the driver's directory is appended to PATH (again at every
    call), and the call ends as the page decides: with the exception of
    a browser that does not start or a page that cannot be read, with
    AttributeError when the page has no listing table, or with what the
    loop over the rows gives. A browser that was started has been quit
    when the call ends, whether it returns or raises; one INFO record is
    logged when it returns and none when it raises; no file is written
    and no request sent. *)
Theorem get_tickers_run (B : Browser) (chrome_driver_path : string) (h : Host) :
  Scrape.get_tickers B chrome_driver_path h
  = match environ_PATH h with
    | None => (Raised (mkExc "KeyError" "'PATH'"), h)
    | Some path =>
        (Scrape.listed_tickers B,
         mkHost
           (mkRuntime (files (runtime h))
              (log (runtime h)
               ++ match Scrape.listed_tickers B with
                  | Returned tickers =>
                      [mkLog INFO ("Retrieved " +:+ pretty (length tickers) +:+ " tickers.")]
                  | Raised _ => []
                  end)
              (requested (runtime h)))
           (Some (path +:+ ":" +:+ chrome_driver_path))
           (chrome_running h))
    end.
Proof.
  unfold Scrape.get_tickers, Scrape.listed_tickers. hy_unfold. py_unfold.
  destruct h as [[fs lg rq] [path|] n]; simpl; [|done].
  destruct (chrome B) as [[]|e]; simpl; [|by rewrite app_nil_r].
  destruct (listing_rows B Scrape.tickers_url) as [[rows|]|e]; simpl;
    try by rewrite app_nil_r.
  destruct (Scrape.tickers_of_rows rows []) as [tickers|e]; simpl; [done|].
  by rewrite app_nil_r.
Qed.

Lemma get_available_dates_run (B : Browser) (chrome_driver_path : string)
    (ticker frequency : string) (h : Host) :
  Scrape.get_available_dates B chrome_driver_path ticker frequency h
  = match environ_PATH h with
    | None => (Raised (mkExc "KeyError" "'PATH'"), h)
    | Some path =>
        (Scrape.listed_dates B ticker frequency,
         mkHost
           (mkRuntime (files (runtime h))
              (log (runtime h)
               ++ match Scrape.listed_dates B ticker frequency with
                  | Returned dates =>
                      [mkLog INFO ("Ticker " +:+ ticker +:+ " has "
                                   +:+ pretty (length dates)
                                   +:+ " available dates for frequency "
                                   +:+ frequency +:+ ".")]
                  | Raised _ => []
                  end)
              (requested (runtime h)))
           (Some (path +:+ ":" +:+ chrome_driver_path))
           (chrome_running h))
    end.
Proof.
  unfold Scrape.get_available_dates, Scrape.listed_dates. hy_unfold. py_unfold.
  destruct h as [[fs lg rq] [path|] n]; simpl; [|done].
  destruct (chrome B) as [[]|e]; simpl; [|by rewrite app_nil_r].
  destruct (listing_rows B (Scrape.dates_url ticker frequency)) as [[rows|]|e]; simpl;
    try by rewrite app_nil_r.
  destruct (Scrape.dates_of_rows rows []) as [dates|e]; simpl; [done|].
  by rewrite app_nil_r.
Qed.

Lemma hy_bind_eq {A B} (m : Hy A) (k : A → Hy B) (h : Host) :
  (m ≫= k) h
  = match m h with
    | (Returned a, h') => k a h'
    | (Raised e, h') => (Raised e, h')
    end.
Proof. reflexivity. Qed.

Lemma py_bind_eq {A B} (m : Py A) (k : A → Py B) (st : Runtime) :
  (m ≫= k) st
  = match m st with
    | (Returned a, st') => k a st'
    | (Raised e, st') => (Raised e, st')
    end.
Proof. reflexivity. Qed.

Lemma get_available_dates_agrees
    (B : Browser) (W : World) (chrome_driver_path ticker frequency : string) (h : Host) :
  Scrape.get_available_dates B chrome_driver_path ticker frequency h
  = match environ_PATH h with
    | None => (Raised (mkExc "KeyError" "'PATH'"), h)
    | Some path =>
        let '(r, rt) := get_available_dates (Scrape.world_with B W) ticker frequency
                          (runtime h) in
        (r, mkHost rt (Some (path +:+ ":" +:+ chrome_driver_path)) (chrome_running h))
    end.
Proof.
  rewrite get_available_dates_run. destruct (environ_PATH h) as [path|]; [|done].
  unfold get_available_dates. py_unfold. simpl.
  destruct (Scrape.listed_dates B ticker frequency) as [dates|e]; simpl; [done|].
  rewrite app_nil_r. by destruct (runtime h).
Qed.

(** X16. [get_available_dates] with the browser is the
    [get_available_dates] that [get_combined_data] was verified with,
    in the world whose listing is what the browser shows: when PATH is
    set, the two end the same way and leave the same log, and the only
    other change in the host is the driver's directory appended to PATH;
    the browser it started has been quit. Without PATH the call raises
    KeyError and changes nothing. *)
Theorem get_available_dates_refines
    (B : Browser) (W : World) (chrome_driver_path ticker frequency : string) (h : Host) :
  Scrape.get_available_dates B chrome_driver_path ticker frequency h
  = match environ_PATH h with
    | None => (Raised (mkExc "KeyError" "'PATH'"), h)
    | Some path =>
        let '(r, rt) := get_available_dates (Scrape.world_with B W) ticker frequency
                          (runtime h) in
        (r, mkHost rt (Some (path +:+ ":" +:+ chrome_driver_path)) (chrome_running h))
    end.
Proof.
  exact (get_available_dates_agrees B W chrome_driver_path ticker frequency h).
Qed.





Lemma get_combined_data_agrees
    (B : Browser) (W : World) (S : Scheduler) (chrome_driver_path : string)
    (ticker frequency : string) (save_to_disk : bool) (output_dir : string)
    (dates : option (list string)) (h : Host) :
  Scrape.get_combined_data B chrome_driver_path W S ticker frequency save_to_disk
    output_dir dates h
  = match environ_PATH h with
    | None => (Raised (mkExc "KeyError" "'PATH'"), h)
    | Some path =>
        let '(r, rt) := get_combined_data (Scrape.world_with B W) S ticker frequency
                          save_to_disk output_dir dates (runtime h) in
        (r, mkHost rt (Some (path +:+ ":" +:+ chrome_driver_path)) (chrome_running h))
    end.
Proof.
  unfold Scrape.get_combined_data, get_combined_data.
  rewrite hy_bind_eq.
  assert (∀ (ds : list string) (h' : Host),
            match ds with
            | [] =>
                in_runtime (LOGGER_warning ("No dates available for ticker " +:+ ticker
                                            +:+ " and frequency " +:+ frequency +:+ "."));;
                mret Pandas.empty
            | _ :: _ =>
                all_data ← in_runtime (retrieve W S ticker frequency save_to_disk
                                         output_dir ds);
                in_runtime (combine ticker all_data)
            end h'
            = let '(r, rt) :=
                match ds with
                | [] =>
                    LOGGER_warning ("No dates available for ticker " +:+ ticker
                                    +:+ " and frequency " +:+ frequency +:+ ".");;
                    mret Pandas.empty
                | _ :: _ =>
                    all_data ← retrieve (Scrape.world_with B W) S ticker frequency
                                 save_to_disk output_dir ds;
                    combine ticker all_data
                end (runtime h') in
              (r, mkHost rt (environ_PATH h') (chrome_running h'))) as Hrest.
  { intros ds h'. destruct ds as [|d ds].
    - hy_unfold. py_unfold. done.
    - change (retrieve (Scrape.world_with B W)) with (retrieve W).
      hy_unfold. unfold mbind, Py_bind, bind.
      destruct (retrieve W S ticker frequency save_to_disk output_dir (d :: ds)
                  (runtime h')) as [[all_data|e] rt1]; simpl; [|done].
      by destruct (combine ticker all_data rt1). }
  assert (∀ path, environ_PATH h = Some path →
            match dates with
            | None => Scrape.get_available_dates B chrome_driver_path ticker frequency
            | Some dates =>
                available_dates ← Scrape.get_available_dates B chrome_driver_path
                                    ticker frequency;
                mret (filter (λ date, date ∈ available_dates) dates)
            end h
            = let '(r, rt) := resolve_dates (Scrape.world_with B W) ticker frequency
                                dates (runtime h) in
              (r, mkHost rt (Some (path +:+ ":" +:+ chrome_driver_path))
                    (chrome_running h))) as Hres.
  { intros path HP. unfold resolve_dates. destruct dates as [ds|].
    - rewrite hy_bind_eq, py_bind_eq, (get_available_dates_agrees B W), HP.
      destruct (get_available_dates (Scrape.world_with B W) ticker frequency
                  (runtime h)) as [[available|e] rt]; done.
    - by rewrite (get_available_dates_agrees B W), HP. }
  destruct (environ_PATH h) as [path|] eqn:HP.
  - rewrite (Hres path eq_refl).
    fold (resolve_dates (Scrape.world_with B W) ticker frequency dates).
    rewrite py_bind_eq.
    destruct (resolve_dates (Scrape.world_with B W) ticker frequency dates (runtime h))
      as [[ds|e] rt]; [|done].
    by rewrite Hrest.
  - assert (match dates with
            | None => Scrape.get_available_dates B chrome_driver_path ticker frequency
            | Some dates =>
                available_dates ← Scrape.get_available_dates B chrome_driver_path
                                    ticker frequency;
                mret (filter (λ date, date ∈ available_dates) dates)
            end h = (Raised (mkExc "KeyError" "'PATH'"), h)) as ->; [|done].
    destruct dates as [ds|].
    + by rewrite hy_bind_eq, get_available_dates_run, HP.
    + by rewrite get_available_dates_run, HP.
Qed.

(** X18. [get_combined_data] with the browser is the
    [get_combined_data] of the properties above, in the world whose
    listing is what the browser shows: when PATH is set, the two return
    or raise the same and leave the same files, log and requests, and
    the only other change in the host is the driver's directory appended
    to PATH, with no browser left running. Without PATH the call raises
    KeyError and changes nothing. *)
Theorem get_combined_data_refines
    (B : Browser) (W : World) (S : Scheduler) (chrome_driver_path : string)
    (ticker frequency : string) (save_to_disk : bool) (output_dir : string)
    (dates : option (list string)) (h : Host) :
  Scrape.get_combined_data B chrome_driver_path W S ticker frequency save_to_disk
    output_dir dates h
  = match environ_PATH h with
    | None => (Raised (mkExc "KeyError" "'PATH'"), h)
    | Some path =>
        let '(r, rt) := get_combined_data (Scrape.world_with B W) S ticker frequency
                          save_to_disk output_dir dates (runtime h) in
        (r, mkHost rt (Some (path +:+ ":" +:+ chrome_driver_path)) (chrome_running h))
    end.
Proof.
  exact (get_combined_data_agrees B W S chrome_driver_path ticker frequency
           save_to_disk output_dir dates h).
Qed.



(* --------------------------------------------------------------------- *)
(* No memory between calls                                                *)
(* --------------------------------------------------------------------- *)


